(** * Schema retrieval and grounding pipeline: a shallow embedding

  The development follows the Python sources [app.py] and
  [chroma_utils.py].  Python strings are Rocq strings, read as the bytes
  of their UTF-8 encoding (whitespace and line boundaries outside the
  7-bit range are not modelled); dictionaries with a fixed set of keys
  are records, dictionaries used as key-value stores are [gmap]s, and
  every call that may raise returns a [result].  Output printed to the
  console is left out, but an expression evaluated for printing that may
  raise is kept.  External collaborators (SQLAlchemy's inspector, the
  vector store's nearest-neighbour search, the embedding provider, the
  generation gateway and the query executor) are fields of a [World]
  record: they are opaque functions of their arguments. *)

From stdpp Require Import base option list strings pretty gmap fin_maps.
From Stdlib Require Import ZArith Ascii String Lia.

Local Open Scope string_scope.
Local Open Scope list_scope.

(** ** Python exceptions and calls that may raise *)

Module Py.

(** The classes of exceptions the handlers of the sources tell apart.
    Every class here derives from Python's [Exception]. *)
Inductive exn_class :=
| ConnectionError      (* requests.exceptions.ConnectionError *)
| RequestException     (* any other requests.exceptions.RequestException *)
| HTTPExceptionClass   (* fastapi.HTTPException *)
| KeyError
| AttributeError
| TypeError
| IndexError
| OtherException.

(** [HTTPException] is what the endpoint raises to answer with an error
    status; [PyExn] is any other exception, with its [str()].  The texts
    of the exceptions the interpreter itself raises are shortened: they
    leave out the name of the offending type. *)
Inductive exn :=
| HTTPException (status_code : nat) (detail : string)
| PyExn (cls : exn_class) (msg : string).

(** [str(e)], as interpolated by [f"{e}"]; for [HTTPException] this is
    Starlette's ["{status_code}: {detail}"]. *)
Definition exn_str (e : exn) : string :=
  match e with
  | HTTPException status_code detail => pretty status_code +:+ ": " +:+ detail
  | PyExn _ msg => msg
  end.

Definition exn_cls (e : exn) : exn_class :=
  match e with
  | HTTPException _ _ => HTTPExceptionClass
  | PyExn cls _ => cls
  end.

Inductive result (A : Type) :=
| Ok (a : A)
| Raise (e : exn).
Arguments Ok {A} a.
Arguments Raise {A} e.

#[global] Instance result_ret : MRet result := fun A a => Ok a.
#[global] Instance result_bind : MBind result := fun A B f m =>
  match m with
  | Ok a => f a
  | Raise e => Raise e
  end.

(** [try: body / except Exception as e: handler e] *)
Definition try_except {A} (body : result A) (handler : exn -> result A)
  : result A :=
  match body with
  | Ok a => Ok a
  | Raise e => handler e
  end.

Definition is_ok {A} (r : result A) : bool :=
  match r with Ok _ => true | Raise _ => false end.

(** A [for] loop whose body may raise, threading the loop state. *)
Fixpoint for_each {A S} (body : S -> A -> result S) (xs : list A) (s : S)
  : result S :=
  match xs with
  | [] => Ok s
  | x :: xs' => s' ← body s x; for_each body xs' s'
  end.

(** [[f(x) for x in xs]] where [f] may raise. *)
Fixpoint comprehension {A B} (f : A -> result B) (xs : list A)
  : result (list B) :=
  match xs with
  | [] => Ok []
  | x :: xs' => y ← f x; ys ← comprehension f xs'; Ok (y :: ys)
  end.

(** [enumerate(xs)] *)
Definition enumerate {A} (xs : list A) : list (nat * A) :=
  imap (fun i x => (i, x)) xs.

End Py.
Export Py.

(** ** Python string primitives *)

Module PyStr.

Definition LF : string := String "010"%char "".

(** Characters removed by [str.strip()] with no argument, within the
    7-bit range: TAB, LF, VT, FF, CR, FS, GS, RS, US and SPACE. *)
Definition is_space (c : ascii) : bool :=
  match c with
  | "009" | "010" | "011" | "012" | "013"
  | "028" | "029" | "030" | "031" | " " => true
  | _ => false
  end%char.

Fixpoint lstrip (s : string) : string :=
  match s with
  | "" => ""
  | String c s' => if is_space c then lstrip s' else s
  end.

Definition rstrip (s : string) : string :=
  String.rev (lstrip (String.rev s)).

Definition strip (s : string) : string := rstrip (lstrip s).

(** [s.startswith(p)] *)
Fixpoint startswith (p s : string) : bool :=
  match p, s with
  | "", _ => true
  | String a p', String b s' => if decide (a = b) then startswith p' s' else false
  | String _ _, "" => false
  end.

(** [s.endswith(p)] *)
Definition endswith (p s : string) : bool :=
  startswith (String.rev p) (String.rev s).

Fixpoint drop (n : nat) (s : string) : string :=
  match n, s with
  | O, _ => s
  | S n', String _ s' => drop n' s'
  | S _, "" => ""
  end.

Fixpoint take (n : nat) (s : string) : string :=
  match n, s with
  | O, _ => ""
  | S n', String c s' => String c (take n' s')
  | S _, "" => ""
  end.

(** [s[a : -b]] for [a >= 0] and [b > 0]: the characters from index [a]
    up to, not including, index [len(s) - b]; empty when the two cross. *)
Definition slice (a b : nat) (s : string) : string :=
  take (String.length s - b - a) (drop a s).

(** [sep.join(xs)] *)
Fixpoint join (sep : string) (xs : list string) : string :=
  match xs with
  | [] => ""
  | [x] => x
  | x :: xs' => x +:+ sep +:+ join sep xs'
  end.

(** [needle in hay] *)
Fixpoint contains (needle hay : string) : bool :=
  startswith needle hay ||
  match hay with
  | "" => false
  | String _ hay' => contains needle hay'
  end.

(** Number of positions of [hay] at which [needle] starts.  For the
    markers counted below, which cannot overlap themselves, this is
    [hay.count(needle)]. *)
Fixpoint count (needle hay : string) : nat :=
  match hay with
  | "" => 0
  | String _ hay' =>
      (if startswith needle hay then 1 else 0) + count needle hay'
  end.

(** [s.split(c)[0]]: the text before the first [c], all of [s] when
    there is none. *)
Fixpoint before (c : ascii) (s : string) : string :=
  match s with
  | "" => ""
  | String a s' => if decide (a = c) then "" else String a (before c s')
  end.

(** [str(i)] for a non-negative integer. *)
Definition str_nat (i : nat) : string := pretty i.

(** [f"{x}"] for a value that is a string or [None]. *)
Definition fmt_opt (x : option string) : string :=
  match x with
  | Some s => s
  | None => "None"
  end.

(** The line boundaries of [str.splitlines()] within the 7-bit range:
    LF, VT, FF, CR, FS, GS and RS. *)
Definition is_line_boundary (c : ascii) : bool :=
  match c with
  | "010" | "011" | "012" | "013" | "028" | "029" | "030" => true
  | _ => false
  end%char.

Fixpoint up_to_boundary (s : string) : string :=
  match s with
  | "" => ""
  | String c s' => if is_line_boundary c then "" else String c (up_to_boundary s')
  end.

(** [s.splitlines()[0]]: raises [IndexError] exactly when [s] is empty. *)
Definition first_line (s : string) : result string :=
  match s with
  | "" => Raise (PyExn IndexError "list index out of range")
  | _ => Ok (up_to_boundary s)
  end.

End PyStr.
Export PyStr.

(** ** Schema introspection ([app.py]) *)

Module Introspect.

(** One entry of [inspector.get_columns(table)].  [col_type] is
    [str(col['type'])].  The keys [primary_key] and [nullable] are read
    with [col.get], so they may be missing; [primary_key] is an integer
    on SQLite (the 1-based position in the key, 0 for none). *)
Record Column := {
  col_name : string;
  col_type : string;
  col_primary_key : option Z;
  col_nullable : option bool
}.

(** One entry of [inspector.get_foreign_keys(table)].  [fk_name] is
    [None] when the backend reports no constraint name. *)
Record ForeignKey := {
  fk_name : option string;
  fk_constrained_columns : list string;
  fk_referred_table : string;
  fk_referred_columns : list string
}.

(** What [inspect(create_engine(db_uri))] offers; each call may raise. *)
Record Inspector := {
  get_table_names : result (list string);
  get_columns : string -> result (list Column);
  get_foreign_keys : string -> result (list ForeignKey)
}.

(** Truth value of [col.get('primary_key')]. *)
Definition pk_truthy (c : Column) : bool :=
  match col_primary_key c with
  | Some z => negb (z =? 0)%Z
  | None => false
  end.

(** Truth value of [not col.get('nullable')]. *)
Definition not_nullable (c : Column) : bool :=
  match col_nullable c with
  | Some b => negb b
  | None => true
  end.

(** Lines 69-75 and 126-136: the column definition line. *)
Definition col_def (c : Column) : string :=
  let col_def := "    " +:+ col_name c +:+ " " +:+ col_type c in
  let col_def := if pk_truthy c then col_def +:+ " PRIMARY KEY" else col_def in
  let col_def := if not_nullable c then col_def +:+ " NOT NULL" else col_def in
  col_def.

(** Lines 86-90 and 155-159. *)
Definition fk_constraint (table_name : string) (fk : ForeignKey) : string :=
  "ALTER TABLE " +:+ table_name +:+ " ADD CONSTRAINT " +:+ fmt_opt (fk_name fk) +:+ " "
  +:+ "FOREIGN KEY (" +:+ join ", " (fk_constrained_columns fk) +:+ ") "
  +:+ "REFERENCES " +:+ fk_referred_table fk
  +:+ " (" +:+ join ", " (fk_referred_columns fk) +:+ ");".

(** *** [get_db_schema] *)

(** Body of the loop over [table_names], lines 63-91: appends to
    [schema_info]. *)
Definition db_schema_table (insp : Inspector)
    (schema_info : list string) (table_name : string) : result (list string) :=
  let schema_info := schema_info ++ ["CREATE TABLE " +:+ table_name +:+ " ("] in
  columns ← get_columns insp table_name;
  let col_definitions := col_def <$> columns in
  let schema_info := schema_info ++ [join ("," +:+ LF) col_definitions] in
  let schema_info := schema_info ++ [");"] in
  foreign_keys ← get_foreign_keys insp table_name;
  let schema_info := schema_info ++ (fk_constraint table_name <$> foreign_keys) in
  Ok (schema_info ++ [LF]).

(** The [try] block of [get_db_schema], lines 56-93. *)
Definition db_schema_body (connect : string -> result Inspector)
    (db_uri : string) : result string :=
  inspector ← connect db_uri;
  table_names ← get_table_names inspector;
  schema_info ← for_each (db_schema_table inspector) table_names [];
  Ok (join LF schema_info).

Definition get_db_schema (connect : string -> result Inspector)
    (db_uri : string) : result string :=
  try_except (db_schema_body connect db_uri)
    (fun e => Ok ("Error: Could not retrieve database schema. Details: " +:+ exn_str e)).

(** *** [get_structured_db_schema] *)

Record Relationship := {
  from_table : string;
  from_columns : list string;
  to_table : string;
  to_columns : list string;
  rel_description : string
}.

Record Table := {
  name : string;
  ddl : string;
  description : string;
  columns : list string;
  foreign_keys : list string
}.

(** The dictionary returned by [get_structured_db_schema]; the key
    [error] is present only on the failure path. *)
Record StructuredSchema := {
  tables : list Table;
  relationships : list Relationship;
  error : option string
}.

(** Lines 140-142: the description of one column. *)
Definition column_description (c : Column) : string :=
  let constraints :=
    (if pk_truthy c then ["primary key"] else []) ++
    (if not_nullable c then ["not null"] else []) in
  let constraint_desc :=
    match constraints with
    | [] => ""
    | _ => " (" +:+ join ", " constraints +:+ ")"
    end in
  col_name c +:+ " (" +:+ col_type c +:+ ")" +:+ constraint_desc.

(** Line 163. *)
Definition fk_desc (table_name : string) (fk : ForeignKey) : string :=
  table_name +:+ "." +:+ join ", " (fk_constrained_columns fk) +:+ " -> "
  +:+ fk_referred_table fk +:+ "." +:+ join ", " (fk_referred_columns fk).

(** Loop state of lines 154-171: [table_ddl], [fk_descriptions] and the
    shared [structured_schema["relationships"]]. *)
Definition fk_step (table_name : string)
    (st : string * list string * list Relationship) (fk : ForeignKey)
  : string * list string * list Relationship :=
  let '(table_ddl, fk_descriptions, rels) := st in
  let table_ddl := table_ddl +:+ LF +:+ fk_constraint table_name fk in
  let d := fk_desc table_name fk in
  (table_ddl, fk_descriptions ++ [d],
   rels ++ [{| from_table := table_name;
               from_columns := fk_constrained_columns fk;
               to_table := fk_referred_table fk;
               to_columns := fk_referred_columns fk;
               rel_description := d |}]).

(** Body of the loop over [table_names], lines 117-180. *)
Definition structured_table (insp : Inspector)
    (structured_schema : StructuredSchema) (table_name : string)
  : result StructuredSchema :=
  let table_ddl_parts := ["CREATE TABLE " +:+ table_name +:+ " ("] in
  cols ← get_columns insp table_name;
  let col_definitions := col_def <$> cols in
  let column_descriptions := column_description <$> cols in
  let table_ddl_parts := table_ddl_parts ++ [join ("," +:+ LF) col_definitions] in
  let table_ddl_parts := table_ddl_parts ++ [");"] in
  let table_ddl := join LF table_ddl_parts in
  let table_description :=
    "Table " +:+ table_name +:+ " with columns: " +:+ join ", " column_descriptions in
  fks ← get_foreign_keys insp table_name;
  let '(table_ddl, fk_descriptions, rels) :=
    fold_left (fk_step table_name) fks
              (table_ddl, [], relationships structured_schema) in
  Ok {| tables := tables structured_schema ++
                  [{| name := table_name;
                      ddl := table_ddl;
                      description := table_description;
                      columns := column_descriptions;
                      foreign_keys := fk_descriptions |}];
        relationships := rels;
        error := error structured_schema |}.

(** The [try] block of [get_structured_db_schema], lines 106-182. *)
Definition structured_body (connect : string -> result Inspector)
    (db_uri : string) : result StructuredSchema :=
  inspector ← connect db_uri;
  table_names ← get_table_names inspector;
  let structured_schema :=
    {| tables := []; relationships := []; error := None |} in
  for_each (structured_table inspector) table_names structured_schema.

Definition get_structured_db_schema (connect : string -> result Inspector)
    (db_uri : string) : result StructuredSchema :=
  try_except (structured_body connect db_uri)
    (fun e => Ok {| tables := [];
                    relationships := [];
                    error := Some ("Could not retrieve database schema. Details: "
                                   +:+ exn_str e) |}).

End Introspect.
Export Introspect.

(** ** The vector index ([chroma_utils.py]) *)

Module ChromaUtils.

Definition collection_name : string := "sql_schema_embeddings".

(** The metadata dictionaries of lines 92 and 100. *)
Record Metadata := {
  md_type : string;
  md_table_name : option string
}.

(** The argument of [add_schema_to_chroma]; every key is read with
    [.get] and a default, so every key may be missing. *)
Record TableInfo := {
  ti_name : option string;
  ti_ddl : option string;
  ti_description : option string
}.

Record RelInfo := { ri_description : option string }.

Record SchemaInfo := {
  si_tables : option (list TableInfo);
  si_relationships : option (list RelInfo)
}.

(** The dictionary built by [get_structured_db_schema], read as the
    argument of [add_schema_to_chroma] (line 206 of [app.py]). *)
Definition as_schema_info (s : StructuredSchema) : SchemaInfo :=
  {| si_tables :=
       Some ((fun t => {| ti_name := Some (name t);
                          ti_ddl := Some (ddl t);
                          ti_description := Some (description t) |}) <$> tables s);
     si_relationships :=
       Some ((fun r => {| ri_description := Some (rel_description r) |})
               <$> relationships s) |}.

(** The three lists [documents], [metadatas], [ids] of lines 78-80. *)
Definition Batch : Type := list string * list Metadata * list string.

Definition table_id (table_name : string) (i : nat) : string :=
  "schema_table_" +:+ table_name +:+ "_" +:+ str_nat i.

Definition rel_id (i : nat) : string := "schema_rel_" +:+ str_nat i.

(** Lines 84-86. *)
Definition table_name_of (i : nat) (table : TableInfo) : string :=
  default ("table_" +:+ str_nat i) (ti_name table).

(** Lines 85-89. *)
Definition table_doc (i : nat) (table : TableInfo) : string :=
  let table_name := table_name_of i table in
  let ddl := default "" (ti_ddl table) in
  let description :=
    default ("Schema for table " +:+ table_name +:+ ".") (ti_description table) in
  "Table: " +:+ table_name +:+ LF +:+ "DDL: " +:+ ddl +:+ LF
  +:+ "Description: " +:+ description.

(** Body of the loop of lines 83-93. *)
Definition table_step (acc : Batch) (it : nat * TableInfo) : Batch :=
  let '(documents, metadatas, ids) := acc in
  let '(i, table) := it in
  let table_name := table_name_of i table in
  (documents ++ [table_doc i table],
   metadatas ++ [{| md_type := "table_schema"; md_table_name := Some table_name |}],
   ids ++ [table_id table_name i]).

(** Line 97. *)
Definition rel_doc (i : nat) (rel : RelInfo) : string :=
  default ("Database relationship " +:+ str_nat i +:+ ".") (ri_description rel).

(** Body of the loop of lines 96-101. *)
Definition rel_step (acc : Batch) (it : nat * RelInfo) : Batch :=
  let '(documents, metadatas, ids) := acc in
  let '(i, rel) := it in
  (documents ++ [rel_doc i rel],
   metadatas ++ [{| md_type := "relationship"; md_table_name := None |}],
   ids ++ [rel_id i]).

(** Lines 78-101: the document-building step. *)
Definition build_documents (schema_info : SchemaInfo) : Batch :=
  let acc := fold_left table_step
               (enumerate (default [] (si_tables schema_info))) ([], [], []) in
  fold_left rel_step (enumerate (default [] (si_relationships schema_info))) acc.

Section Store.
(** Embedding vectors and distances are values of the embedding
    provider and of the store; the sources never inspect them. *)
Context {Vec Dist : Type}.

Record Entry := {
  e_embedding : Vec;
  e_document : string;
  e_metadata : Metadata
}.

(** [collection.upsert(documents=, metadatas=, ids=, embeddings=)]:
    insert or replace, entry by entry, keyed by id. *)
Fixpoint upsert (documents : list string) (metadatas : list Metadata)
    (ids : list string) (embeddings : list Vec)
    (collection : gmap string Entry) : gmap string Entry :=
  match documents, metadatas, ids, embeddings with
  | d :: documents', m :: metadatas', i :: ids', e :: embeddings' =>
      upsert documents' metadatas' ids' embeddings'
        (<[i := {| e_embedding := e; e_document := d; e_metadata := m |}]> collection)
  | _, _, _, _ => collection
  end.

(** [client.get_collection(name)] raises when there is none. *)
Definition get_collection (client : gmap string (gmap string Entry))
    (name : string) : result (gmap string Entry) :=
  match client !! name with
  | Some c => Ok c
  | None => Raise (PyExn OtherException ("Collection " +:+ name +:+ " does not exist."))
  end.

(** [add_schema_to_chroma]: the client's persisted state after the call,
    and whether the call returned or raised.  The collection is created
    before anything can raise, so it is there in either case. *)
Definition add_schema_to_chroma (get_ollama_embedding : string -> result Vec)
    (client : gmap string (gmap string Entry)) (schema_info : SchemaInfo)
  : gmap string (gmap string Entry) * result unit :=
  (* get_or_create_collection *)
  let collection := default ∅ (client !! collection_name) in
  let client := <[collection_name := collection]> client in
  let '(documents, metadatas, ids) := build_documents schema_info in
  match documents with
  | [] => (client, Ok ())
  | _ =>
      match comprehension get_ollama_embedding documents with
      | Ok embeddings =>
          (<[collection_name :=
               upsert documents metadatas ids embeddings collection]> client,
           Ok ())
      | Raise e => (client, Raise e)
      end
  end.

(** The dictionary returned by [collection.query]; one inner list per
    query embedding. *)
Record QueryResult := {
  qr_documents : option (list (list string));
  qr_metadatas : list (list (option Metadata));
  qr_distances : list (list Dist)
}.

(** [xs[i]] on a list. *)
Definition index {A} (xs : list A) (i : nat) : result A :=
  match xs !! i with
  | Some x => Ok x
  | None => Raise (PyExn IndexError "list index out of range")
  end.

(** Body of the loop of lines 155-160; the two [print]s evaluate
    [metadata.get('type')] and [doc.splitlines()[0]]. *)
Definition snippet_step (results : QueryResult)
    (relevant_schema_snippets : list string) (it : nat * string)
  : result (list string) :=
  let '(i, doc) := it in
  ms ← index (qr_metadatas results) 0;
  metadata ← index ms i;
  ds ← index (qr_distances results) 0;
  distance ← index ds i;
  _ ← match metadata with
      | Some _ => Ok ()
      | None => Raise (PyExn AttributeError "'NoneType' object has no attribute 'get'")
      end;
  _ ← first_line doc;
  Ok (relevant_schema_snippets ++ [doc]).

(** [query_schema_from_chroma] *)
Definition query_schema_from_chroma
    (get_ollama_embedding : string -> result Vec)
    (collection_query : gmap string Entry -> Vec -> nat -> result QueryResult)
    (client : gmap string (gmap string Entry))
    (natural_language_query : string) (n_results : nat)
  : result (list string) :=
  match get_collection client collection_name with
  | Raise _ => Ok []
  | Ok collection =>
      query_embedding ← get_ollama_embedding natural_language_query;
      results ← collection_query collection query_embedding n_results;
      match qr_documents results with
      | Some (docs0 :: _) =>
          for_each (snippet_step results) (enumerate docs0) []
      | Some [] | None => Ok []
      end
  end.

End Store.
Arguments Entry : clear implicits.
Arguments QueryResult : clear implicits.

End ChromaUtils.
Export ChromaUtils.

(** ** The request pipeline ([query_database] in [app.py]) *)

Module Serving.

(** The parsed body of the gateway's answer, [response.json()].
    Numbers are integers here; the sources only test them for truth. *)
#[warning="-register-all"] Inductive json :=
| JNull
| JBool (b : bool)
| JNum (z : Z)
| JStr (s : string)
| JArr (items : list json)
| JObj (fields : list (string * json)).

Definition truthy (j : json) : bool :=
  match j with
  | JNull => false
  | JBool b => b
  | JNum z => negb (z =? 0)%Z
  | JStr s => negb (String.eqb s "")
  | JArr items => match items with [] => false | _ => true end
  | JObj fields => match fields with [] => false | _ => true end
  end.

Fixpoint lookup_field (k : string) (fields : list (string * json)) : option json :=
  match fields with
  | [] => None
  | (k', v) :: fields' => if decide (k' = k) then Some v else lookup_field k fields'
  end.

(** [o.get(k)] *)
Definition py_get (o : json) (k : string) : result json :=
  match o with
  | JObj fields => Ok (default JNull (lookup_field k fields))
  | _ => Raise (PyExn AttributeError "object has no attribute 'get'")
  end.

(** [o[k]] with a string key *)
Definition py_getitem (o : json) (k : string) : result json :=
  match o with
  | JObj fields =>
      match lookup_field k fields with
      | Some v => Ok v
      | None => Raise (PyExn KeyError ("'" +:+ k +:+ "'"))
      end
  | JStr _ => Raise (PyExn TypeError "string indices must be integers")
  | JArr _ => Raise (PyExn TypeError "list indices must be integers or slices, not str")
  | _ => Raise (PyExn TypeError "object is not subscriptable")
  end.

Fixpoint chars (s : string) : list json :=
  match s with
  | "" => []
  | String c s' => JStr (String c "") :: chars s'
  end.

(** The items a [for] loop over [o] visits. *)
Definition py_iter (o : json) : result (list json) :=
  match o with
  | JArr items => Ok items
  | JObj fields => Ok ((fun kv => JStr kv.1) <$> fields)
  | JStr s => Ok (chars s)
  | _ => Raise (PyExn TypeError "object is not iterable")
  end.

(** [o.strip()] *)
Definition py_strip (o : json) : result string :=
  match o with
  | JStr s => Ok (strip s)
  | _ => Raise (PyExn AttributeError "object has no attribute 'strip'")
  end.

(** Line 288. *)
Definition extraction_sentinel : string :=
  "Error: Could not extract SQL from Langflow response.".

(** The loop of lines 290-293, with its [break]. *)
Fixpoint extract_loop (outputs : list json) (generated_sql : string)
  : result string :=
  match outputs with
  | [] => Ok generated_sql
  | output :: outputs' =>
      results ← py_get output "results";
      hit ← (if truthy results
             then (r ← py_getitem output "results";
                   message ← py_get r "message";
                   Ok (truthy message))
             else Ok false);
      if (hit : bool)
      then (r ← py_getitem output "results";
            message ← py_getitem r "message";
            data ← py_getitem message "data";
            text ← py_getitem data "text";
            py_strip text)
      else extract_loop outputs' generated_sql
  end.

(** Lines 288-293. *)
Definition extract_sql (langflow_result : json) : result string :=
  let generated_sql := extraction_sentinel in
  if truthy langflow_result
  then (outputs ← py_get langflow_result "outputs";
        if truthy outputs
        then (outputs ← py_getitem langflow_result "outputs";
              items ← py_iter outputs;
              extract_loop items generated_sql)
        else Ok generated_sql)
  else Ok generated_sql.

Definition fence_open : string := "```sql".
Definition fence_close : string := "```".

(** Lines 298-299. *)
Definition cleanup (generated_sql : string) : string :=
  if startswith fence_open generated_sql && endswith fence_close generated_sql
  then strip (slice (String.length fence_open) (String.length fence_close) generated_sql)
  else generated_sql.

(** Lines 245-258: the f-string. *)
Definition full_prompt_for_ollama (llm_db_type schema_context_for_llm user_query : string)
  : string :=
  LF +:+
  "You are an expert SQL query generator." +:+ LF +:+
  "Your task is to convert natural language questions into SQL queries for a "
    +:+ llm_db_type +:+ " database." +:+ LF +:+
  "You must only return the SQL query and nothing else." +:+ LF +:+
  "Focus only on the tables and columns provided in the schema below that are relevant to the user's question."
    +:+ LF +:+
  LF +:+
  "Here is the database schema:" +:+ LF +:+
  "```sql" +:+ LF +:+
  schema_context_for_llm +:+ LF +:+
  "```" +:+ LF +:+
  LF +:+
  "Based on this schema, generate a SQL query for the following natural language question:"
    +:+ LF +:+
  user_query +:+ LF.

(** Lines 222 and 29. *)
Definition llm_db_type_of (database_uri : string) : string :=
  before "+" (before ":" database_uri).

Section World.
Context {Vec Dist Value : Type}.

(** Configuration read from the environment, and the external
    collaborators. *)
Record World := {
  DATABASE_URI : string;
  LANGFLOW_API_URL : string;
  LANGFLOW_API_KEY : string;
  (** [inspect(create_engine(uri))] *)
  connect : string -> result Inspector;
  (** [chroma_utils.initialize_chroma_client()]: the persisted store *)
  initialize_chroma_client : result (gmap string (gmap string (Entry Vec)));
  get_ollama_embedding : string -> result Vec;
  collection_query : gmap string (Entry Vec) -> Vec -> nat -> result (QueryResult Dist);
  (** [requests.post(url, json={"inputs": {"input_value": p}}, headers=h)],
      [raise_for_status()] and [json()], as a function of url, p, h *)
  langflow_post : string -> string -> list (string * string) -> result json;
  (** [connection.execute(text(sql))] on a fresh engine for the uri:
      the column names and the rows *)
  execute : string -> string -> result (list string * list (list Value))
}.

Record QueryResponse := {
  sql_query : string;
  query_result : list (gmap string Value)
}.

(** [dict(zip(column_names, row))]: later duplicates of a key win. *)
Fixpoint dict_zip (column_names : list string) (row : list Value)
    (d : gmap string Value) : gmap string Value :=
  match column_names, row with
  | k :: ks, v :: vs => dict_zip ks vs (<[k := v]> d)
  | _, _ => d
  end.

(** Lines 302-313. *)
Definition run_query (W : World) (generated_sql : string)
  : result (list (gmap string Value)) :=
  res ← execute W (DATABASE_URI W) generated_sql;
  let column_names := fst res in
  Ok (map (fun row => dict_zip column_names row ∅) (snd res)).

(** Lines 262-331: the gateway call, extraction, cleanup, execution. *)
Definition generate_and_execute (W : World) (full_prompt : string)
  : result QueryResponse :=
  let headers := [("Content-Type", "application/json")] in
  let headers :=
    if negb (String.eqb (LANGFLOW_API_KEY W) "")
    then headers ++ [("X-API-Key", LANGFLOW_API_KEY W)] else headers in
  try_except
    (langflow_result ← langflow_post W (LANGFLOW_API_URL W) (strip full_prompt) headers;
     generated_sql ← extract_sql langflow_result;
     let generated_sql := cleanup generated_sql in
     query_result ←
       try_except (run_query W generated_sql)
         (fun db_error =>
            Raise (HTTPException 500
              ("Database query failed. Possible invalid SQL: " +:+ exn_str db_error)));
     Ok {| sql_query := generated_sql; query_result := query_result |})
    (fun e =>
       match exn_cls e with
       | ConnectionError =>
           Raise (HTTPException 500 "Could not connect to Langflow API. Is Langflow running?")
       | RequestException =>
           Raise (HTTPException 500 ("Error from Langflow API: " +:+ exn_str e))
       | _ =>
           Raise (HTTPException 500 ("An unexpected error occurred: " +:+ exn_str e))
       end).

(** Line 240. *)
Definition schema_context (relevant_schema_snippets : list string)
    (full_db_schema : string) : string :=
  match relevant_schema_snippets with
  | [] => full_db_schema
  | _ => join LF relevant_schema_snippets
  end.

(** Lines 228-236: the retrieval step of a request. *)
Definition retrieve (W : World) (user_query : string) : result (list string) :=
  chroma_client_instance ← initialize_chroma_client W;
  query_schema_from_chroma (get_ollama_embedding W) (collection_query W)
    chroma_client_instance user_query 5.

(** [query_database]: [Ok] is the success response, [Raise
    (HTTPException ..)] the error response the endpoint chooses, any
    other [Raise] an exception that leaves the endpoint unhandled. *)
Definition query_database (W : World) (user_query : string) : result QueryResponse :=
  full_db_schema ← get_db_schema (connect W) (DATABASE_URI W);
  if startswith "Error" full_db_schema
  then Raise (HTTPException 500 full_db_schema)
  else
    let llm_db_type := llm_db_type_of (DATABASE_URI W) in
    relevant_schema_snippets ← retrieve W user_query;
    let schema_context_for_llm := schema_context relevant_schema_snippets full_db_schema in
    generate_and_execute W
      (full_prompt_for_ollama llm_db_type schema_context_for_llm user_query).

(** [startup_event], lines 194-209: the store after startup.  Every
    exception is caught and printed. *)
Definition startup_event (W : World)
    (chroma_client_global : gmap string (gmap string (Entry Vec)))
  : gmap string (gmap string (Entry Vec)) :=
  match get_structured_db_schema (connect W) (DATABASE_URI W) with
  | Raise _ => chroma_client_global
  | Ok structured_schema =>
      let failed :=
        match error structured_schema with
        | Some msg => negb (String.eqb msg "")
        | None => false
        end in
      if failed then chroma_client_global
      else fst (add_schema_to_chroma (get_ollama_embedding W) chroma_client_global
                  (as_schema_info structured_schema))
  end.

End World.
Arguments World : clear implicits.
Arguments QueryResponse : clear implicits.

End Serving.
Export Serving.

(** ** Sample databases and worlds *)

Module Samples.

(** A database with the single table [t]. *)
Definition single_table (t : string) (cols : list Column) (fks : list ForeignKey)
  : Inspector :=
  {| get_table_names := Ok [t];
     get_columns := fun _ => Ok cols;
     get_foreign_keys := fun _ => Ok fks |}.

(** [(EmployeeID, INTEGER, PK, NOT NULL), (FirstName, TEXT, NOT NULL)] *)
Definition employees_columns : list Column :=
  [ {| col_name := "EmployeeID"; col_type := "INTEGER";
       col_primary_key := Some 1%Z; col_nullable := Some false |};
    {| col_name := "FirstName"; col_type := "TEXT";
       col_primary_key := Some 0%Z; col_nullable := Some false |} ].

Definition employees_ddl (t : string) : string :=
  "CREATE TABLE " +:+ t +:+ " (" +:+ LF +:+
  "    EmployeeID INTEGER PRIMARY KEY NOT NULL," +:+ LF +:+
  "    FirstName TEXT NOT NULL" +:+ LF +:+ ");".

(** The foreign key of [create_db.py]: declared without a name, so
    SQLite reports [None]. *)
Definition department_fk : ForeignKey :=
  {| fk_name := None;
     fk_constrained_columns := ["DepartmentID"];
     fk_referred_table := "Departments";
     fk_referred_columns := ["DepartmentID"] |}.

(** The database of [create_db.py], with the columns that matter. *)
Definition company_db : Inspector :=
  {| get_table_names := Ok ["Departments"; "Employees"];
     get_columns := fun t =>
       if decide (t = "Employees")
       then Ok (employees_columns ++
                [ {| col_name := "DepartmentID"; col_type := "INTEGER";
                     col_primary_key := Some 0%Z; col_nullable := Some true |} ])
       else Ok [ {| col_name := "DepartmentID"; col_type := "INTEGER";
                    col_primary_key := Some 1%Z; col_nullable := Some false |};
                 {| col_name := "DepartmentName"; col_type := "TEXT";
                    col_primary_key := Some 0%Z; col_nullable := Some false |} ];
     get_foreign_keys := fun t =>
       if decide (t = "Employees") then Ok [department_fk] else Ok [] |}.

(** A database whose connection cannot be opened. *)
Definition unreachable : string -> result Inspector :=
  fun _ => Raise (PyExn OtherException "unable to open database file").

(** A database that lists its tables and then fails on the columns of
    the second one. *)
Definition fails_midway : Inspector :=
  {| get_table_names := Ok ["Departments"; "Employees"];
     get_columns := fun t =>
       if decide (t = "Employees")
       then Raise (PyExn OtherException "no such table: Employees")
       else get_columns company_db t;
     get_foreign_keys := get_foreign_keys company_db |}.

(** An empty database. *)
Definition empty_db : Inspector :=
  {| get_table_names := Ok [];
     get_columns := fun _ => Ok [];
     get_foreign_keys := fun _ => Ok [] |}.

(** A world over a given database, store and gateway answer, with an
    executor that answers every statement with one row. *)
Definition world (db : string -> result Inspector)
    (store : gmap string (gmap string (Entry nat)))
    (answer : result json) : World nat nat Z :=
  {| DATABASE_URI := "sqlite:///./my_test_database.db";
     LANGFLOW_API_URL := "http://localhost:7860/api/v1/run/flow";
     LANGFLOW_API_KEY := "";
     connect := db;
     initialize_chroma_client := Ok store;
     get_ollama_embedding := fun s => Ok (String.length s);
     collection_query := fun _ _ _ =>
       Ok {| qr_documents := Some [[]]; qr_metadatas := [[]]; qr_distances := [[]] |};
     langflow_post := fun _ _ _ => answer;
     execute := fun _ _ => Ok (["n"], [[1%Z]]) |}.

(** The snapshot of the database of [create_db.py]. *)
Definition company_snapshot : StructuredSchema :=
  match get_structured_db_schema (fun _ => Ok company_db) "sqlite:///./my_test_database.db" with
  | Ok s => s
  | Raise _ => {| tables := []; relationships := []; error := None |}
  end.

(** An embedding provider for the examples. *)
Definition toy_embedding (text : string) : result nat := Ok (String.length text).

(** A gateway answer of the expected shape carrying [text]. *)
Definition answer_with (text : string) : json :=
  JObj [("outputs",
         JArr [JObj [("results",
                      JObj [("message",
                             JObj [("data", JObj [("text", JStr text)])])])]])].

End Samples.
Export Samples.

(** ** Closed forms of the rendering loops

  What the loops of [get_structured_db_schema] compute for one table,
  written without accumulators; the properties below relate the loops
  to these. *)

Module Rendering.

(** Lines 119-146. *)
Definition base_ddl (t : string) (cols : list Column) : string :=
  join LF ["CREATE TABLE " +:+ t +:+ " (";
           join ("," +:+ LF) (col_def <$> cols);
           ");"].

(** The text appended to [table_ddl] by line 160, over all foreign keys. *)
Fixpoint fk_lines (t : string) (fks : list ForeignKey) : string :=
  match fks with
  | [] => ""
  | fk :: fks' => LF +:+ fk_constraint t fk +:+ fk_lines t fks'
  end.

Definition relationship_of (t : string) (fk : ForeignKey) : Relationship :=
  {| from_table := t;
     from_columns := fk_constrained_columns fk;
     to_table := fk_referred_table fk;
     to_columns := fk_referred_columns fk;
     rel_description := fk_desc t fk |}.

Definition table_entry (t : string) (cols : list Column) (fks : list ForeignKey)
  : Table :=
  {| name := t;
     ddl := base_ddl t cols +:+ fk_lines t fks;
     description :=
       "Table " +:+ t +:+ " with columns: " +:+ join ", " (column_description <$> cols);
     columns := column_description <$> cols;
     foreign_keys := fk_desc t <$> fks |}.

(** The first exception the backend raises on the metadata calls the
    two extraction functions make, in the order they make them: the
    columns, then the foreign keys, of each table in turn. *)
Fixpoint first_failure (insp : Inspector) (ts : list string) : option exn :=
  match ts with
  | [] => None
  | t :: ts' =>
      match get_columns insp t with
      | Raise e => Some e
      | Ok _ =>
          match get_foreign_keys insp t with
          | Raise e => Some e
          | Ok _ => first_failure insp ts'
          end
      end
  end.

(** The connection cannot be opened, or metadata enumeration raises. *)
Definition introspection_failure (connect : string -> result Inspector)
    (uri : string) : option exn :=
  match connect uri with
  | Raise e => Some e
  | Ok insp =>
      match get_table_names insp with
      | Raise e => Some e
      | Ok ts => first_failure insp ts
      end
  end.

(** Lines 64-91: the lines [get_db_schema] appends for one table. *)
Definition table_lines (t : string) (cols : list Column) (fks : list ForeignKey)
  : list string :=
  ["CREATE TABLE " +:+ t +:+ " ("; join ("," +:+ LF) (col_def <$> cols); ");"]
  ++ (fk_constraint t <$> fks) ++ [LF].

(** [ls] are the lines of table [t] of the database behind [insp]. *)
Definition renders_lines (insp : Inspector) (t : string) (ls : list string) : Prop :=
  exists cols fks,
    get_columns insp t = Ok cols /\
    get_foreign_keys insp t = Ok fks /\
    ls = table_lines t cols fks.

(** [tbl] is the entry of table [t] of the database behind [insp]. *)
Definition renders (insp : Inspector) (t : string) (tbl : Table) : Prop :=
  exists cols fks,
    get_columns insp t = Ok cols /\
    get_foreign_keys insp t = Ok fks /\
    tbl = table_entry t cols fks.

End Rendering.
Export Rendering.

(** ** Closed forms of the document-building loops *)

Module Indexing.

Definition tables_of (s : SchemaInfo) : list TableInfo := default [] (si_tables s).
Definition rels_of (s : SchemaInfo) : list RelInfo := default [] (si_relationships s).

(** The documents, in order: one per table, then one per relationship. *)
Definition documents_of (s : SchemaInfo) : list string :=
  imap table_doc (tables_of s) ++ imap rel_doc (rels_of s).

(** The ids, in order: [schema_table_<name>_<i>] for the table at
    position [i], then [schema_rel_<i>] for the relationship at
    position [i]. *)
Definition ids_of (s : SchemaInfo) : list string :=
  imap (fun i t => table_id (table_name_of i t) i) (tables_of s)
  ++ imap (fun i _ => rel_id i) (rels_of s).

Definition metadatas_of (s : SchemaInfo) : list Metadata :=
  imap (fun i t => {| md_type := "table_schema";
                      md_table_name := Some (table_name_of i t) |}) (tables_of s)
  ++ imap (fun _ _ => {| md_type := "relationship"; md_table_name := None |})
       (rels_of s).

(** The entry a batch holds for id [k]: the last one upserted under [k]. *)
Fixpoint batch_lookup {Vec} (documents : list string) (metadatas : list Metadata)
    (ids : list string) (embeddings : list Vec) (k : string) : option (Entry Vec) :=
  match documents, metadatas, ids, embeddings with
  | d :: documents', m :: metadatas', i :: ids', e :: embeddings' =>
      match batch_lookup documents' metadatas' ids' embeddings' k with
      | Some x => Some x
      | None =>
          if decide (i = k)
          then Some {| e_embedding := e; e_document := d; e_metadata := m |}
          else None
      end
  | _, _, _, _ => None
  end.

End Indexing.
Export Indexing.

(** ** The degraded retrieval path *)

Module Degraded.

(** The result of [collection.query] carries no document: the
    [documents] entry is [None], an empty list, or starts with an empty
    inner list. *)
Definition no_documents {Dist} (results : QueryResult Dist) : bool :=
  match qr_documents results with
  | Some ((_ :: _) :: _) => false
  | _ => true
  end.

(** The index has nothing for the question: the collection is absent,
    or the question was embedded and the query returned no document. *)
Definition index_yields_nothing {Vec Dist Value} (W : World Vec Dist Value)
    (client : gmap string (gmap string (Entry Vec))) (question : string) : Prop :=
  match client !! collection_name with
  | None => True
  | Some collection =>
      exists v results,
        get_ollama_embedding W question = Ok v /\
        collection_query W collection v 5 = Ok results /\
        no_documents results = true
  end.

(** An output of the gateway's answer in which no message can be
    located: an object whose [results] entry is missing or falsy, or is
    an object whose [message] entry is missing or falsy. *)
Definition lacks_message (output : json) : bool :=
  match output with
  | JObj fields =>
      let results := default JNull (lookup_field "results" fields) in
      if truthy results
      then match results with
           | JObj rfields => negb (truthy (default JNull (lookup_field "message" rfields)))
           | _ => false
           end
      else true
  | _ => false
  end.

(** No SQL text can be located in the shape of the gateway's answer: the
    answer is falsy, or it is an object whose [outputs] entry is missing
    or falsy, or is a list of outputs all of which lack a message. *)
Definition no_sql_text (langflow_result : json) : bool :=
  negb (truthy langflow_result) ||
  match langflow_result with
  | JObj fields =>
      let outputs := default JNull (lookup_field "outputs" fields) in
      negb (truthy outputs) ||
      match outputs with
      | JArr items => forallb lacks_message items
      | _ => false
      end
  | _ => false
  end.

(** The store after the startup indexing of the database of
    [create_db.py]. *)
Definition indexed_store : gmap string (gmap string (Entry nat)) :=
  startup_event (world (fun _ => Ok company_db) ∅ (Ok JNull)) ∅.

End Degraded.
Export Degraded.

(** ** Closed forms and shapes used by the further properties *)

Module Coverage.

(** The columns and foreign keys the backend reports for a table, empty
    when the call raises. *)
Definition cols_of (insp : Inspector) (t : string) : list Column :=
  match get_columns insp t with
  | Ok cols => cols
  | Raise _ => []
  end.

Definition fks_of (insp : Inspector) (t : string) : list ForeignKey :=
  match get_foreign_keys insp t with
  | Ok fks => fks
  | Raise _ => []
  end.

(** The snapshot of the tables [ts] of the database behind [insp]. *)
Definition snapshot_of (insp : Inspector) (ts : list string) : StructuredSchema :=
  {| tables := (fun t => table_entry t (cols_of insp t) (fks_of insp t)) <$> ts;
     relationships :=
       List.concat ((fun t => relationship_of t <$> fks_of insp t) <$> ts);
     error := None |}.

(** The schema text of the tables [ts] of the database behind [insp]. *)
Definition schema_text_of (insp : Inspector) (ts : list string) : string :=
  join LF (List.concat ((fun t => table_lines t (cols_of insp t) (fks_of insp t)) <$> ts)).


(** The first result list of a query has a metadata dictionary and a
    distance for each of its documents. *)
Definition well_shaped {Dist} (results : QueryResult Dist) (docs0 : list string) : Prop :=
  exists rest mds0 mrest ds0 drest,
    qr_documents results = Some (docs0 :: rest) /\
    qr_metadatas results = mds0 :: mrest /\
    qr_distances results = ds0 :: drest /\
    (forall i, i < List.length docs0 -> exists m, mds0 !! i = Some (Some m)) /\
    (forall i, i < List.length docs0 -> is_Some (ds0 !! i)).


(** The snapshot of the database of [create_db.py] after the table
    [Employees] was dropped. *)
Definition shrunk_snapshot : StructuredSchema :=
  {| tables := List.firstn 1 (tables company_snapshot);
     relationships := [];
     error := None |}.

(** Query results for the examples: two snippets, and the same with an
    empty document between them. *)
Definition two_snippets : QueryResult nat :=
  {| qr_documents :=
       Some [["Table: Employees"; "Employees.DepartmentID -> Departments.DepartmentID"]];
     qr_metadatas :=
       [[Some {| md_type := "table_schema"; md_table_name := Some "Employees" |};
         Some {| md_type := "relationship"; md_table_name := None |}]];
     qr_distances := [[1; 2]] |}.

Definition with_empty_document : QueryResult nat :=
  {| qr_documents :=
       Some [["Table: Employees"; ""; "Employees.DepartmentID -> Departments.DepartmentID"]];
     qr_metadatas :=
       [[Some {| md_type := "table_schema"; md_table_name := Some "Employees" |};
         Some {| md_type := "relationship"; md_table_name := None |};
         Some {| md_type := "relationship"; md_table_name := None |}]];
     qr_distances := [[1; 2; 3]] |}.

(** A world over the database of [create_db.py] with an indexed store,
    whose query returns [results] and whose gateway returns [answer]. *)
Definition retrieving_world (results : result (QueryResult nat))
    (embedding : string -> result nat) (answer : result json) : World nat nat Z :=
  {| DATABASE_URI := "sqlite:///./my_test_database.db";
     LANGFLOW_API_URL := "http://localhost:7860/api/v1/run/flow";
     LANGFLOW_API_KEY := "secret";
     connect := fun _ => Ok company_db;
     initialize_chroma_client := Ok indexed_store;
     get_ollama_embedding := embedding;
     collection_query := fun _ _ _ => results;
     langflow_post := fun _ _ _ => answer;
     execute := fun _ sql =>
       if startswith "SELECT" sql then Ok (["n"], [[1%Z]])
       else Raise (PyExn OtherException "syntax error") |}.


(** An output of the gateway's answer that carries [text] as its message. *)
Definition message_output (text : string) : json :=
  JObj [("results",
         JObj [("message", JObj [("data", JObj [("text", JStr text)])])])].

End Coverage.
Export Coverage.

(** * Properties *)

(** ** The definitions at work *)

Example strip_both_sides : strip (LF +:+ "  a b " +:+ LF) = "a b".
Proof. reflexivity. Qed.

Example slice_fence : slice 6 3 "```sql SELECT 1 ```" = " SELECT 1 ".
Proof. reflexivity. Qed.

Example slice_crossing : slice 6 3 "```sql``" = "".
Proof. reflexivity. Qed.

Example join_three : join ", " ["a"; "b"; "c"] = "a, b, c".
Proof. reflexivity. Qed.

Example count_positions : count "NOT NULL" "a NOT NULL, b NOT NULL" = 2.
Proof. reflexivity. Qed.

Example dialect_of_uri : llm_db_type_of "mysql+pymysql://user@host/db" = "mysql".
Proof. reflexivity. Qed.

Example str_of_ordinal : str_nat 12 = "12".
Proof. vm_compute. reflexivity. Qed.

Example builder_defaults :
  build_documents
    {| si_tables := Some [{| ti_name := None; ti_ddl := None; ti_description := None |}];
       si_relationships := Some [{| ri_description := None |}] |}
  = (["Table: table_0" +:+ LF +:+ "DDL: " +:+ LF
      +:+ "Description: Schema for table table_0.";
      "Database relationship 0."],
     [{| md_type := "table_schema"; md_table_name := Some "table_0" |};
      {| md_type := "relationship"; md_table_name := None |}],
     ["schema_table_table_0_0"; "schema_rel_0"]).
Proof. vm_compute. reflexivity. Qed.

Example relationship_of_company :
  relationships company_snapshot
  = [{| from_table := "Employees"; from_columns := ["DepartmentID"];
        to_table := "Departments"; to_columns := ["DepartmentID"];
        rel_description := "Employees.DepartmentID -> Departments.DepartmentID" |}].
Proof. vm_compute. reflexivity. Qed.

(** A fenced answer, end to end: the executor receives the inner text. *)
Example fenced_answer_request :
  query_database
    (world (fun _ => Ok company_db) ∅
       (Ok (answer_with (" ```sql" +:+ LF +:+ "SELECT 1;" +:+ LF +:+ "``` "))))
    "List all employees"
  = Ok {| sql_query := "SELECT 1;"; query_result := [ {[ "n" := 1%Z ]} ] |}.
Proof. reflexivity. Qed.

(** A message without [data]: the [KeyError] becomes an error response. *)
Example malformed_answer_request :
  query_database
    (world (fun _ => Ok company_db) ∅
       (Ok (JObj [("outputs",
                   JArr [JObj [("results",
                                JObj [("message", JObj [("text", JStr "SELECT 1")])])]])])))
    "List all employees"
  = Raise (HTTPException 500 "An unexpected error occurred: 'data'").
Proof. reflexivity. Qed.

(** A statement the executor rejects. *)
Example rejected_statement_request :
  query_database
    {| DATABASE_URI := "sqlite:///./my_test_database.db";
       LANGFLOW_API_URL := "http://localhost:7860/api/v1/run/flow";
       LANGFLOW_API_KEY := "";
       connect := fun _ => Ok company_db;
       initialize_chroma_client := Ok (∅ : gmap string (gmap string (Entry nat)));
       get_ollama_embedding := toy_embedding;
       collection_query := fun _ _ _ =>
         Ok {| qr_documents := Some [[]]; qr_metadatas := [[]];
               qr_distances := ([[]] : list (list nat)) |};
       langflow_post := fun _ _ _ => Ok (answer_with "SELEC 1");
       execute := fun _ _ =>
         (Raise (PyExn OtherException "near SELEC: syntax error")
          : result (list string * list (list Z))) |}
    "List all employees"
  = Raise (HTTPException 500
      "An unexpected error occurred: 500: Database query failed. Possible invalid SQL: near SELEC: syntax error").
Proof. reflexivity. Qed.

(** ** Strings *)

Section StringFacts.

Lemma sapp_cons (c : ascii) (s t : string) :
  String c s +:+ t = String c (s +:+ t).
Proof. reflexivity. Qed.

Lemma sapp_nil_l (s : string) : "" +:+ s = s.
Proof. reflexivity. Qed.

Lemma sapp_nil_r (s : string) : s +:+ "" = s.
Proof. induction s as [|c s IH]; [done|]. by rewrite sapp_cons, IH. Qed.

Lemma sapp_assoc (s t u : string) : (s +:+ t) +:+ u = s +:+ (t +:+ u).
Proof. induction s as [|c s IH]; [done|]. by rewrite !sapp_cons, IH. Qed.

Lemma slength_app (s t : string) :
  String.length (s +:+ t) = String.length s + String.length t.
Proof. induction s as [|c s IH]; [done|]. rewrite sapp_cons. simpl. by rewrite IH. Qed.

Lemma startswith_app (p s : string) : startswith p (p +:+ s) = true.
Proof.
  induction p as [|c p IH]; [done|].
  rewrite sapp_cons. simpl. by rewrite decide_True.
Qed.

Lemma startswith_app_inv (p s : string) :
  startswith p s = true -> exists r, s = p +:+ r.
Proof.
  revert s. induction p as [|c p IH]; intros s H.
  - by exists s.
  - destruct s as [|d s]; [done|]. simpl in H.
    destruct (decide (c = d)) as [->|]; [|done].
    destruct (IH s H) as [r ->]. by exists r.
Qed.

Lemma contains_here (n s : string) : contains n (n +:+ s) = true.
Proof.
  destruct (n +:+ s) eqn:E; simpl; rewrite <- E, startswith_app; done.
Qed.

Lemma contains_skip (n a s : string) :
  contains n s = true -> contains n (a +:+ s) = true.
Proof.
  intros H. induction a as [|c a IH]; [done|].
  rewrite sapp_cons. simpl. rewrite IH. apply orb_true_r.
Qed.

Lemma contains_mid (n a b : string) : contains n (a +:+ n +:+ b) = true.
Proof. apply contains_skip, contains_here. Qed.

(** A one-character needle occurs nowhere in [s] exactly when no
    character of [s] is that character. *)
Lemma contains_char_cons (c d : ascii) (s : string) :
  contains (String c "") (String d s) = false ->
  c <> d /\ contains (String c "") s = false.
Proof.
  simpl. destruct (decide (c = d)) as [->|Hne]; [done|].
  simpl. intros H. split; [done|].
  destruct s; simpl in *; done.
Qed.

Lemma before_app_absent (c : ascii) (t r : string) :
  contains (String c "") t = false ->
  before c (t +:+ String c r) = t.
Proof.
  induction t as [|d t IH]; intros H.
  - rewrite sapp_nil_l. simpl. by rewrite decide_True.
  - apply contains_char_cons in H as [Hne H].
    rewrite sapp_cons. simpl. rewrite decide_False by done. by rewrite IH.
Qed.

Lemma startswith_before (c : ascii) (m1 m2 s : string) :
  contains (String c "") m1 = false ->
  startswith (m1 +:+ String c m2) s = true ->
  before c s = m1.
Proof.
  revert s. induction m1 as [|d m1 IH]; intros s Hm H.
  - rewrite sapp_nil_l in H. destruct s as [|e s]; [done|].
    simpl in H. destruct (decide (c = e)) as [->|]; [|done].
    simpl. by rewrite decide_True.
  - apply contains_char_cons in Hm as [Hne Hm].
    rewrite sapp_cons in H. destruct s as [|e s]; [done|].
    simpl in H. destruct (decide (d = e)) as [->|]; [|done].
    simpl. rewrite decide_False by done. by rewrite (IH s).
Qed.

Lemma count_app_cons (m : string) (c : ascii) (t r : string) :
  count m (String c t +:+ r)
  = (if startswith m (String c (t +:+ r)) then 1 else 0) + count m (t +:+ r).
Proof. reflexivity. Qed.

(** A marker of the shape [m1 ++ " " ++ m2] cannot start inside a
    space-free name that is followed by [" ("], unless [m2] itself
    starts with an opening parenthesis. *)
Lemma count_name (m1 m2 t r : string) :
  contains " " m1 = false ->
  contains " " t = false ->
  startswith "(" m2 = false ->
  m2 <> "" ->
  count (m1 +:+ String " " m2) (t +:+ String " " (String "(" r))
  = count (m1 +:+ String " " m2) (String " " (String "(" r)).
Proof.
  intros Hm1 Ht Hm2 Hne. induction t as [|c t IH]; [done|].
  pose proof Ht as Ht0.
  apply contains_char_cons in Ht as [Hc Ht].
  rewrite count_app_cons, IH by done.
  destruct (startswith _ (String c _)) eqn:E; [|done].
  exfalso.
  pose proof (startswith_before " " m1 m2 _ Hm1 E) as Hb.
  rewrite <- sapp_cons, before_app_absent in Hb by done.
  rewrite <- sapp_cons, Hb in E.
  apply startswith_app_inv in E as [r' E].
  rewrite sapp_assoc in E. apply (inj (String.app m1)) in E.
  destruct m2 as [|d m2]; [done|].
  rewrite !sapp_cons in E. injection E as E1 E2.
  simpl in Hm2. by rewrite decide_True in Hm2.
Qed.

End StringFacts.

(** ** Schema introspection *)

Section IntrospectionFacts.

Lemma fk_fold (t : string) (fks : list ForeignKey)
    (d : string) (ds : list string) (rs : list Relationship) :
  fold_left (fk_step t) fks (d, ds, rs)
  = (d +:+ fk_lines t fks, ds ++ (fk_desc t <$> fks), rs ++ (relationship_of t <$> fks)).
Proof.
  revert d ds rs. induction fks as [|fk fks IH]; intros d ds rs.
  - simpl. by rewrite sapp_nil_r, !List.app_nil_r.
  - simpl fold_left. rewrite IH.
    simpl. by rewrite !sapp_assoc, <- !List.app_assoc.
Qed.

Lemma structured_table_inv (insp : Inspector) (st st' : StructuredSchema) (t : string) :
  structured_table insp st t = Ok st' ->
  exists tbl fks,
    renders insp t tbl /\
    get_foreign_keys insp t = Ok fks /\
    tables st' = tables st ++ [tbl] /\
    relationships st' = relationships st ++ (relationship_of t <$> fks) /\
    error st' = error st.
Proof.
  unfold structured_table.
  destruct (get_columns insp t) as [cols|e] eqn:Hc; [|done].
  destruct (get_foreign_keys insp t) as [fks|e] eqn:Hf; [|done].
  simpl. rewrite fk_fold. intros [= <-].
  exists (table_entry t cols fks), fks. simpl.
  split_and!; try done.
  exists cols, fks. done.
Qed.

Lemma structured_loop_inv (insp : Inspector) (ts : list string)
    (st st' : StructuredSchema) :
  for_each (structured_table insp) ts st = Ok st' ->
  exists new,
    Forall2 (renders insp) ts new /\
    tables st' = tables st ++ new /\
    error st' = error st.
Proof.
  revert st. induction ts as [|t ts IH]; intros st H.
  - injection H as <-. exists []. rewrite List.app_nil_r. by repeat constructor.
  - simpl in H. destruct (structured_table insp st t) as [st1|e] eqn:H1; [|done].
    simpl in H. apply structured_table_inv in H1 as (tbl & fks & Hr & _ & Ht & _ & He).
    apply IH in H as (new & Hnew & Ht' & He').
    exists (tbl :: new). split_and!.
    + by constructor.
    + by rewrite Ht', Ht, <- List.app_assoc.
    + congruence.
Qed.

(** On success the snapshot has one entry per table, in the order of
    [get_table_names], and no [error] key. *)
Lemma structured_body_inv (connect : string -> result Inspector) (uri : string)
    (s : StructuredSchema) :
  structured_body connect uri = Ok s ->
  exists insp ts,
    connect uri = Ok insp /\
    get_table_names insp = Ok ts /\
    Forall2 (renders insp) ts (tables s) /\
    error s = None.
Proof.
  unfold structured_body.
  destruct (connect uri) as [insp|e] eqn:Hc; [simpl|done].
  destruct (get_table_names insp) as [ts|e] eqn:Ht; [simpl|done].
  intros H. apply structured_loop_inv in H as (new & Hnew & Ht' & He).
  exists insp, ts. simpl in Ht', He. rewrite Ht'. done.
Qed.

Lemma get_structured_ok (connect : string -> result Inspector) (uri : string)
    (s : StructuredSchema) :
  structured_body connect uri = Ok s ->
  get_structured_db_schema connect uri = Ok s.
Proof. unfold get_structured_db_schema. by intros ->. Qed.

Lemma get_structured_raise (connect : string -> result Inspector) (uri : string)
    (e : exn) :
  structured_body connect uri = Raise e ->
  get_structured_db_schema connect uri
  = Ok {| tables := []; relationships := [];
          error := Some ("Could not retrieve database schema. Details: " +:+ exn_str e) |}.
Proof. unfold get_structured_db_schema. by intros ->. Qed.

Lemma startswith_cons_ne (a b : ascii) (p s : string) :
  a <> b -> startswith (String a p) (String b s) = false.
Proof. intros. simpl. by rewrite decide_False. Qed.

Lemma count_pk_name (t r : string) :
  contains " " t = false ->
  count "PRIMARY KEY" (t +:+ " (" +:+ r) = count "PRIMARY KEY" (" (" +:+ r).
Proof. intros H. by apply (count_name "PRIMARY" "KEY" t r). Qed.

Lemma count_nn_name (t r : string) :
  contains " " t = false ->
  count "NOT NULL" (t +:+ " (" +:+ r) = count "NOT NULL" (" (" +:+ r).
Proof. intros H. by apply (count_name "NOT" "NULL" t r). Qed.

Lemma count_create_table (m rest : string) (c : ascii) (m' : string) :
  m = String c m' ->
  contains (String c "") "CREATE TABLE " = false ->
  count m ("CREATE TABLE " +:+ rest) = count m rest.
Proof.
  intros -> Hc.
  repeat (apply contains_char_cons in Hc as [? Hc]).
  repeat (rewrite count_app_cons, startswith_cons_ne by done).
  reflexivity.
Qed.

Lemma employees_ddl_counts (t tail : string) :
  contains " " t = false ->
  count "PRIMARY KEY" (employees_ddl t +:+ tail) = count "PRIMARY KEY" (employees_ddl "" +:+ tail) /\
  count "NOT NULL" (employees_ddl t +:+ tail) = count "NOT NULL" (employees_ddl "" +:+ tail).
Proof.
  intros Ht. unfold employees_ddl. rewrite !sapp_assoc.
  rewrite !(count_create_table "PRIMARY KEY" _ "P" "RIMARY KEY" eq_refl eq_refl).
  rewrite !(count_create_table "NOT NULL" _ "N" "OT NULL" eq_refl eq_refl).
  rewrite count_pk_name, count_nn_name by done. done.
Qed.

End IntrospectionFacts.

(** ** Rendering of the two-column example table *)

Section RenderingExample.

Variable connect : string -> result Inspector.
Variable uri : string.

Lemma employees_structured (t : string) :
  connect uri = Ok (single_table t employees_columns []) ->
  get_structured_db_schema connect uri
  = Ok {| tables := [table_entry t employees_columns []];
          relationships := [];
          error := None |}.
Proof.
  intros H. unfold get_structured_db_schema, structured_body. rewrite H.
  unfold table_entry. simpl fk_lines. rewrite sapp_nil_r. reflexivity.
Qed.

Lemma employees_entry_ddl (t : string) :
  ddl (table_entry t employees_columns []) = employees_ddl t.
Proof.
  unfold table_entry, base_ddl, employees_ddl. simpl.
  rewrite sapp_nil_r, !sapp_assoc. do 2 f_equal.
Qed.

Lemma employees_full (t : string) :
  connect uri = Ok (single_table t employees_columns []) ->
  get_db_schema connect uri = Ok (employees_ddl t +:+ LF +:+ LF).
Proof.
  intros H. unfold get_db_schema, db_schema_body. rewrite H. simpl.
  unfold employees_ddl. rewrite !sapp_assoc. do 3 f_equal.
Qed.

(** C9: for a table with the columns [(EmployeeID, INTEGER, primary key,
    not null)] and [(FirstName, TEXT, not null)] and no foreign keys,
    whatever its (space-free) name, both renderings of the schema are the
    [CREATE TABLE] text with the EmployeeID line before the FirstName
    line, and that text has exactly one [PRIMARY KEY] marker and exactly
    two [NOT NULL] markers. *)
Theorem employees_rendering (t : string) :
  contains " " t = false ->
  connect uri = Ok (single_table t employees_columns []) ->
  exists (tbl : Table) (full : string),
    get_structured_db_schema connect uri
    = Ok {| tables := [tbl]; relationships := []; error := None |} /\
    get_db_schema connect uri = Ok full /\
    ddl tbl = employees_ddl t /\
    full = employees_ddl t +:+ LF +:+ LF /\
    columns tbl = ["EmployeeID (INTEGER) (primary key, not null)";
                   "FirstName (TEXT) (not null)"] /\
    count "PRIMARY KEY" (ddl tbl) = 1 /\
    count "NOT NULL" (ddl tbl) = 2 /\
    count "PRIMARY KEY" full = 1 /\
    count "NOT NULL" full = 2.
Proof.
  intros Ht H.
  exists (table_entry t employees_columns []), (employees_ddl t +:+ LF +:+ LF).
  rewrite employees_entry_ddl.
  destruct (employees_ddl_counts t "" Ht) as [Hpk Hnn].
  destruct (employees_ddl_counts t (LF +:+ LF) Ht) as [Hpk' Hnn'].
  rewrite sapp_nil_r in Hpk, Hnn.
  split_and!; try done.
  - by apply employees_structured.
  - by apply employees_full.
Qed.

End RenderingExample.

Lemma employees_rendering_witness :
contains " " "Employees" = false /\
exists (tbl : Table) (full : string),
  get_structured_db_schema
    (fun _ => Ok (single_table "Employees" employees_columns [])) "sqlite:///x"
  = Ok {| tables := [tbl]; relationships := []; error := None |} /\
  get_db_schema
    (fun _ => Ok (single_table "Employees" employees_columns [])) "sqlite:///x"
  = Ok full /\
  ddl tbl = employees_ddl "Employees" /\
  full = employees_ddl "Employees" +:+ LF +:+ LF /\
  columns tbl = ["EmployeeID (INTEGER) (primary key, not null)";
                 "FirstName (TEXT) (not null)"] /\
  count "PRIMARY KEY" (ddl tbl) = 1 /\
  count "NOT NULL" (ddl tbl) = 2 /\
  count "PRIMARY KEY" full = 1 /\
  count "NOT NULL" full = 2.
Proof.
split; [reflexivity|].
apply (employees_rendering
         (fun _ => Ok (single_table "Employees" employees_columns []))
         "sqlite:///x" "Employees"); reflexivity.
Defined.

(** ** The text rendering, and the constraint names in both renderings *)

Section RenderingFacts.

Lemma db_schema_table_inv (insp : Inspector) (acc r : list string) (t : string) :
  db_schema_table insp acc t = Ok r ->
  exists ls, renders_lines insp t ls /\ r = acc ++ ls.
Proof.
  unfold db_schema_table.
  destruct (get_columns insp t) as [cols|e] eqn:Hc; [simpl|done].
  destruct (get_foreign_keys insp t) as [fks|e] eqn:Hf; [simpl|done].
  intros [= <-]. exists (table_lines t cols fks). split.
  - by exists cols, fks.
  - unfold table_lines. by rewrite <- !List.app_assoc.
Qed.

Lemma db_schema_loop_inv (insp : Inspector) (ts : list string) (acc r : list string) :
  for_each (db_schema_table insp) ts acc = Ok r ->
  exists lss, Forall2 (renders_lines insp) ts lss /\ r = acc ++ List.concat lss.
Proof.
  revert acc. induction ts as [|t ts IH]; intros acc H.
  - injection H as <-. exists []. simpl. rewrite List.app_nil_r. by repeat constructor.
  - simpl in H. destruct (db_schema_table insp acc t) as [r1|e] eqn:H1; [simpl in H|done].
    apply db_schema_table_inv in H1 as (ls & Hls & ->).
    apply IH in H as (lss & Hlss & ->).
    exists (ls :: lss). split; [by constructor|].
    simpl. by rewrite List.app_assoc.
Qed.

(** On success the text is the lines of all tables, in the order of
    [get_table_names], joined by line feeds. *)
Lemma db_schema_body_inv (connect : string -> result Inspector) (uri full : string) :
  db_schema_body connect uri = Ok full ->
  exists insp ts lss,
    connect uri = Ok insp /\
    get_table_names insp = Ok ts /\
    Forall2 (renders_lines insp) ts lss /\
    full = join LF (List.concat lss).
Proof.
  unfold db_schema_body.
  destruct (connect uri) as [insp|e] eqn:Hc; [simpl|done].
  destruct (get_table_names insp) as [ts|e] eqn:Ht; [simpl|done].
  destruct (for_each _ ts []) as [r|e] eqn:Hl; [simpl|done].
  intros [= <-]. apply db_schema_loop_inv in Hl as (lss & Hlss & ->).
  by exists insp, ts, lss.
Qed.

Lemma contains_join (sep x : string) (xs : list string) :
  x ∈ xs -> contains x (join sep xs) = true.
Proof.
  induction xs as [|y xs IH]; intros Hin.
  - by apply elem_of_nil in Hin.
  - apply elem_of_cons in Hin as [->|Hin].
    + destruct xs as [|z xs]; simpl.
      * rewrite <- (sapp_nil_r y) at 2. apply contains_here.
      * apply contains_here.
    + destruct xs as [|z xs]; [by apply elem_of_nil in Hin|].
      change (join sep (y :: z :: xs)) with (y +:+ sep +:+ join sep (z :: xs)).
      by apply contains_skip, contains_skip, IH.
Qed.

Lemma contains_fk_lines (t : string) (fks : list ForeignKey) (fk : ForeignKey)
    (base : string) :
  fk ∈ fks -> contains (fk_constraint t fk) (base +:+ fk_lines t fks) = true.
Proof.
  intros Hin. apply contains_skip.
  induction fks as [|fk' fks IH]; [by apply elem_of_nil in Hin|].
  change (fk_lines t (fk' :: fks))
    with (LF +:+ fk_constraint t fk' +:+ fk_lines t fks).
  apply elem_of_cons in Hin as [->|Hin].
  - apply contains_mid.
  - by apply contains_skip, contains_skip, IH.
Qed.

End RenderingFacts.

Section ConstraintNames.

Variable connect : string -> result Inspector.
Variable uri : string.

(** C7, as the code has it: no constraint id is synthesized.  For every
    foreign key of every table of a database whose schema can be read,
    the [ALTER TABLE] line is part of both renderings, and the name in it
    is the reported name as Python formats it: the reported text when
    there is one, the text [None] when the backend reports no name. *)
Theorem constraint_name_as_reported
    (insp : Inspector) (ts : list string) (s : StructuredSchema) (full : string)
    (i j : nat) (t : string) (fks : list ForeignKey) (fk : ForeignKey) :
  connect uri = Ok insp ->
  get_table_names insp = Ok ts ->
  get_structured_db_schema connect uri = Ok s ->
  error s = None ->
  get_db_schema connect uri = Ok full ->
  startswith "Error" full = false ->
  ts !! i = Some t ->
  get_foreign_keys insp t = Ok fks ->
  fks !! j = Some fk ->
  let reported := match fk_name fk with Some n => n | None => "None" end in
  let line :=
    "ALTER TABLE " +:+ t +:+ " ADD CONSTRAINT " +:+ reported +:+ " FOREIGN KEY ("
    +:+ join ", " (fk_constrained_columns fk) +:+ ") REFERENCES "
    +:+ fk_referred_table fk +:+ " (" +:+ join ", " (fk_referred_columns fk) +:+ ");" in
  contains line full = true /\
  exists tbl, tables s !! i = Some tbl /\ name tbl = t /\ contains line (ddl tbl) = true.
Proof.
  intros Hc Hts Hs He Hfull Hne Hi Hfks Hj reported line.
  assert (line = fk_constraint t fk) as ->.
  { reflexivity. }
  assert (fk ∈ fks) as Hin by (by eapply list_elem_of_lookup_2).
  split.
  - unfold get_db_schema in Hfull.
    destruct (db_schema_body connect uri) as [full'|e] eqn:Hb; simpl in Hfull.
    + injection Hfull as ->.
      apply db_schema_body_inv in Hb as (insp' & ts' & lss & Hc' & Hts' & Hlss & ->).
      rewrite Hc in Hc'. injection Hc' as <-.
      rewrite Hts in Hts'. injection Hts' as <-.
      destruct (Forall2_lookup_l _ _ _ _ _ Hlss Hi) as (ls & Hls & (cols & fks' & _ & Hf & ->)).
      rewrite Hfks in Hf. injection Hf as <-.
      apply contains_join. apply list_elem_of_In, List.in_concat.
      exists (table_lines t cols fks). split.
      * apply list_elem_of_In. by eapply list_elem_of_lookup_2.
      * apply list_elem_of_In. unfold table_lines.
        apply elem_of_app. right. apply elem_of_app. left.
        by apply list_elem_of_fmap_2.
    + injection Hfull as <-. done.
  - unfold get_structured_db_schema in Hs.
    destruct (structured_body connect uri) as [s'|e] eqn:Hb; simpl in Hs.
    + injection Hs as ->.
      apply structured_body_inv in Hb as (insp' & ts' & Hc' & Hts' & Htbl & _).
      rewrite Hc in Hc'. injection Hc' as <-.
      rewrite Hts in Hts'. injection Hts' as <-.
      destruct (Forall2_lookup_l _ _ _ _ _ Htbl Hi) as (tbl & Htl & (cols & fks' & _ & Hf & ->)).
      rewrite Hfks in Hf. injection Hf as <-.
      exists (table_entry t cols fks). split_and!; [done..|].
      by apply contains_fk_lines.
    + injection Hs as <-. done.
Qed.

End ConstraintNames.

Lemma constraint_name_as_reported_witness :
let connect := fun _ : string => Ok company_db in
let line := "ALTER TABLE Employees ADD CONSTRAINT None FOREIGN KEY (DepartmentID) REFERENCES Departments (DepartmentID);" in
exists s full,
  get_structured_db_schema connect "sqlite:///./my_test_database.db" = Ok s /\
  get_db_schema connect "sqlite:///./my_test_database.db" = Ok full /\
  contains line full = true /\
  exists tbl, tables s !! 1 = Some tbl /\ name tbl = "Employees" /\
              contains line (ddl tbl) = true.
Proof.
intros connect line.
destruct (get_structured_db_schema connect "sqlite:///./my_test_database.db")
  as [s|e] eqn:Hs; [|discriminate Hs].
destruct (get_db_schema connect "sqlite:///./my_test_database.db")
  as [full|e] eqn:Hf; [|discriminate Hf].
exists s, full. split; [reflexivity|]. split; [reflexivity|].
apply (constraint_name_as_reported connect "sqlite:///./my_test_database.db"
         company_db ["Departments"; "Employees"] s full 1 0 "Employees"
         [department_fk] department_fk); try reflexivity; try assumption.
- injection Hs as <-. reflexivity.
- injection Hf as <-. reflexivity.
Defined.

(** C7, as stated, fails on the database of [create_db.py]: its foreign key
  has no reported name, and both renderings carry the text [None] as the
  constraint name instead of a synthesized id. *)
Lemma unnamed_constraint_counterexample :
fk_name department_fk = None /\
get_foreign_keys company_db "Employees" = Ok [department_fk] /\
get_db_schema (fun _ => Ok company_db) "sqlite:///./my_test_database.db"
= Ok ("CREATE TABLE Departments (" +:+ LF +:+
      "    DepartmentID INTEGER PRIMARY KEY NOT NULL," +:+ LF +:+
      "    DepartmentName TEXT NOT NULL" +:+ LF +:+
      ");" +:+ LF +:+ LF +:+ LF +:+
      "CREATE TABLE Employees (" +:+ LF +:+
      "    EmployeeID INTEGER PRIMARY KEY NOT NULL," +:+ LF +:+
      "    FirstName TEXT NOT NULL," +:+ LF +:+
      "    DepartmentID INTEGER" +:+ LF +:+
      ");" +:+ LF +:+
      "ALTER TABLE Employees ADD CONSTRAINT None FOREIGN KEY (DepartmentID) REFERENCES Departments (DepartmentID);"
      +:+ LF +:+ LF) /\
(exists s,
   get_structured_db_schema (fun _ => Ok company_db) "sqlite:///./my_test_database.db"
   = Ok s /\
   ddl <$> tables s =
      ["CREATE TABLE Departments (" +:+ LF +:+
        "    DepartmentID INTEGER PRIMARY KEY NOT NULL," +:+ LF +:+
        "    DepartmentName TEXT NOT NULL" +:+ LF +:+
        ");";
        "CREATE TABLE Employees (" +:+ LF +:+
        "    EmployeeID INTEGER PRIMARY KEY NOT NULL," +:+ LF +:+
        "    FirstName TEXT NOT NULL," +:+ LF +:+
        "    DepartmentID INTEGER" +:+ LF +:+
        ");" +:+ LF +:+
        "ALTER TABLE Employees ADD CONSTRAINT None FOREIGN KEY (DepartmentID) REFERENCES Departments (DepartmentID);"]).
Proof.
split_and!; try (vm_compute; reflexivity).
eexists. split; vm_compute; reflexivity.
Qed.

(** ** Failure of introspection *)

Section Failure.

Lemma structured_loop_failure (insp : Inspector) (ts : list string)
    (st : StructuredSchema) :
  match first_failure insp ts with
  | Some e => for_each (structured_table insp) ts st = Raise e
  | None => exists st', for_each (structured_table insp) ts st = Ok st'
  end.
Proof.
  revert st. induction ts as [|t ts IH]; intros st; simpl.
  - by eexists.
  - unfold structured_table.
    destruct (get_columns insp t) as [cols|e]; [simpl|done].
    destruct (get_foreign_keys insp t) as [fks|e]; [simpl|done].
    rewrite fk_fold. apply IH.
Qed.

Lemma db_schema_loop_failure (insp : Inspector) (ts : list string)
    (acc : list string) :
  match first_failure insp ts with
  | Some e => for_each (db_schema_table insp) ts acc = Raise e
  | None => exists r, for_each (db_schema_table insp) ts acc = Ok r
  end.
Proof.
  revert acc. induction ts as [|t ts IH]; intros acc; simpl.
  - by eexists.
  - unfold db_schema_table.
    destruct (get_columns insp t) as [cols|e]; [simpl|done].
    destruct (get_foreign_keys insp t) as [fks|e]; [simpl|done].
    apply IH.
Qed.

Variable connect : string -> result Inspector.
Variable uri : string.

(** The [try] block of [get_structured_db_schema] raises exactly when
    the backend does, with the backend's exception. *)
Lemma structured_body_failure :
  match introspection_failure connect uri with
  | Some e => structured_body connect uri = Raise e
  | None => exists s, structured_body connect uri = Ok s
  end.
Proof.
  unfold introspection_failure, structured_body.
  destruct (connect uri) as [insp|e]; [simpl|done].
  destruct (get_table_names insp) as [ts|e]; [simpl|done].
  apply structured_loop_failure.
Qed.

(** So does the [try] block of [get_db_schema]. *)
Lemma db_schema_body_failure :
  match introspection_failure connect uri with
  | Some e => db_schema_body connect uri = Raise e
  | None => exists full, db_schema_body connect uri = Ok full
  end.
Proof.
  unfold introspection_failure, db_schema_body.
  destruct (connect uri) as [insp|e]; [simpl|done].
  destruct (get_table_names insp) as [ts|e]; [simpl|done].
  pose proof (db_schema_loop_failure insp ts []) as H.
  destruct (first_failure insp ts) as [e|].
  - by rewrite H.
  - destruct H as [r ->]. by eexists.
Qed.

(** A schema text that was read never looks like the error text. *)
Lemma db_schema_not_error (full : string) :
  db_schema_body connect uri = Ok full -> startswith "Error" full = false.
Proof.
  intros H. apply db_schema_body_inv in H as (insp & ts & lss & _ & _ & Hlss & ->).
  destruct Hlss as [|t ls ts' lss' (cols & fks & _ & _ & ->) _]; [done|].
  reflexivity.
Qed.

Lemma get_db_schema_failure (e : exn) :
  introspection_failure connect uri = Some e ->
  get_db_schema connect uri
  = Ok ("Error: Could not retrieve database schema. Details: " +:+ exn_str e).
Proof.
  intros H. pose proof db_schema_body_failure as Hb. rewrite H in Hb.
  unfold get_db_schema. by rewrite Hb.
Qed.

Lemma get_structured_failure (e : exn) :
  introspection_failure connect uri = Some e ->
  get_structured_db_schema connect uri
  = Ok {| tables := []; relationships := [];
          error := Some ("Could not retrieve database schema. Details: " +:+ exn_str e) |}.
Proof.
  intros H. pose proof structured_body_failure as Hb. rewrite H in Hb.
  by apply get_structured_raise.
Qed.

(** C3, as the code has it: when the connection cannot be opened or
    metadata enumeration raises, neither extraction function raises.
    The structured one returns a dictionary whose table and relationship
    lists are empty (nothing read before the failure is kept) and whose
    [error] key carries the failure detail; the text one returns a text
    that starts with [Error] and carries the same detail. *)
Theorem introspection_failure_is_returned (e : exn) :
  introspection_failure connect uri = Some e ->
  get_structured_db_schema connect uri
  = Ok {| tables := []; relationships := [];
          error := Some ("Could not retrieve database schema. Details: " +:+ exn_str e) |}
  /\ get_db_schema connect uri
     = Ok ("Error: Could not retrieve database schema. Details: " +:+ exn_str e).
Proof.
  intros H. split; [by apply get_structured_failure | by apply get_db_schema_failure].
Qed.

(** C10: structured extraction never raises and always returns a
    dictionary with a table list and a relationship list.  When an
    exception occurs both lists are empty and the [error] key is present
    with a non-empty text carrying the detail; otherwise the key is
    absent.  The lists alone do not reveal a failure: the empty database
    yields the same two lists with no [error] key. *)
Theorem structured_extraction_total :
  (exists s, get_structured_db_schema connect uri = Ok s /\
     match introspection_failure connect uri with
     | Some e =>
         tables s = [] /\ relationships s = [] /\
         error s = Some ("Could not retrieve database schema. Details: " +:+ exn_str e) /\
         (forall msg, error s = Some msg -> String.eqb msg "" = false)
     | None => error s = None
     end) /\
  (exists s0, get_structured_db_schema (fun _ => Ok empty_db) uri = Ok s0 /\
     tables s0 = [] /\ relationships s0 = [] /\ error s0 = None).
Proof.
  split.
  - pose proof structured_body_failure as Hb.
    destruct (introspection_failure connect uri) as [e|] eqn:Hf.
    + eexists. split; [by apply get_structured_failure|]. simpl.
      split_and!; try done. by intros msg [= <-].
    + destruct Hb as [s Hs]. exists s. split; [by apply get_structured_ok|].
      by apply structured_body_inv in Hs as (_ & _ & _ & _ & _ & ?).
  - eexists. split; [reflexivity|]. done.
Qed.

End Failure.

Lemma introspection_failure_is_returned_witness :
introspection_failure (fun _ => Ok fails_midway) "sqlite:///./my_test_database.db"
= Some (PyExn OtherException "no such table: Employees") /\
get_structured_db_schema (fun _ => Ok fails_midway) "sqlite:///./my_test_database.db"
= Ok {| tables := []; relationships := [];
        error := Some "Could not retrieve database schema. Details: no such table: Employees" |}
/\ get_db_schema (fun _ => Ok fails_midway) "sqlite:///./my_test_database.db"
   = Ok "Error: Could not retrieve database schema. Details: no such table: Employees".
Proof.
split; [reflexivity|].
apply (introspection_failure_is_returned (fun _ => Ok fails_midway)
         "sqlite:///./my_test_database.db"
         (PyExn OtherException "no such table: Employees")).
reflexivity.
Defined.

(** C3, as stated, fails when the database file cannot be opened: the
  caller of either extraction function is handed a value, not an
  exception. *)
Lemma introspection_error_counterexample :
introspection_failure unreachable "sqlite:///./missing.db"
= Some (PyExn OtherException "unable to open database file") /\
is_ok (get_structured_db_schema unreachable "sqlite:///./missing.db") = true /\
is_ok (get_db_schema unreachable "sqlite:///./missing.db") = true /\
get_structured_db_schema unreachable "sqlite:///./missing.db"
= Ok {| tables := []; relationships := [];
        error := Some "Could not retrieve database schema. Details: unable to open database file" |}.
Proof. split_and!; reflexivity. Qed.

(** ** Document building and indexing *)

Section BuilderFacts.

Lemma table_fold (f : nat -> TableInfo -> nat * TableInfo) (ts : list TableInfo)
    (D : list string) (M : list Metadata) (I : list string) :
  fold_left table_step (imap f ts) (D, M, I)
  = (D ++ imap (fun i t => table_doc (f i t).1 (f i t).2) ts,
     M ++ imap (fun i t => {| md_type := "table_schema";
                              md_table_name := Some (table_name_of (f i t).1 (f i t).2) |}) ts,
     I ++ imap (fun i t => table_id (table_name_of (f i t).1 (f i t).2) (f i t).1) ts).
Proof.
  revert f D M I. induction ts as [|t ts IH]; intros f D M I.
  - simpl. by rewrite !List.app_nil_r.
  - simpl. destruct (f 0 t) as [i0 t0] eqn:E. simpl.
    rewrite IH. rewrite <- !List.app_assoc. simpl. done.
Qed.

Lemma rel_fold (f : nat -> RelInfo -> nat * RelInfo) (rs : list RelInfo)
    (D : list string) (M : list Metadata) (I : list string) :
  fold_left rel_step (imap f rs) (D, M, I)
  = (D ++ imap (fun i r => rel_doc (f i r).1 (f i r).2) rs,
     M ++ imap (fun _ _ => {| md_type := "relationship"; md_table_name := None |}) rs,
     I ++ imap (fun i r => rel_id (f i r).1) rs).
Proof.
  revert f D M I. induction rs as [|r rs IH]; intros f D M I.
  - simpl. by rewrite !List.app_nil_r.
  - simpl. destruct (f 0 r) as [i0 r0] eqn:E. simpl.
    rewrite IH. rewrite <- !List.app_assoc. simpl. done.
Qed.

(** The loops of lines 78-101 compute the closed forms. *)
Lemma build_documents_closed (s : SchemaInfo) :
  build_documents s = (documents_of s, metadatas_of s, ids_of s).
Proof.
  unfold build_documents, enumerate. rewrite table_fold, rel_fold. done.
Qed.

End BuilderFacts.

Lemma bind_Ok {A B} (a : A) (f : A -> result B) : (Ok a ≫= f) = f a.
Proof. reflexivity. Qed.

Lemma bind_Raise {A B} (e : exn) (f : A -> result B) : (Raise e ≫= f) = Raise e.
Proof. reflexivity. Qed.

Section StoreFacts.

Context {Vec : Type}.
Implicit Types (c : gmap string (Entry Vec)) (client : gmap string (gmap string (Entry Vec))).

(** After an upsert, an id of the batch maps to the batch's entry for
    it, and every other id to what the collection held before. *)
Lemma upsert_lookup (documents : list string) (metadatas : list Metadata)
    (ids : list string) (embeddings : list Vec) c (k : string) :
  upsert documents metadatas ids embeddings c !! k
  = match batch_lookup documents metadatas ids embeddings k with
    | Some x => Some x
    | None => c !! k
    end.
Proof.
  revert metadatas ids embeddings c.
  induction documents as [|d documents IH];
    intros [|m metadatas] [|i ids] [|e embeddings] c; try done.
  simpl. rewrite IH.
  destruct (batch_lookup documents metadatas ids embeddings k); [done|].
  destruct (decide (i = k)) as [->|Hne].
  - by rewrite lookup_insert_eq.
  - by rewrite lookup_insert_ne.
Qed.

Lemma upsert_idempotent (documents : list string) (metadatas : list Metadata)
    (ids : list string) (embeddings : list Vec) c :
  upsert documents metadatas ids embeddings
    (upsert documents metadatas ids embeddings c)
  = upsert documents metadatas ids embeddings c.
Proof.
  apply map_eq. intros k. rewrite !upsert_lookup.
  by destruct (batch_lookup documents metadatas ids embeddings k).
Qed.

Variable get_ollama_embedding : string -> result Vec.

(** What one indexing run does to the store, in terms of the closed
    forms. *)
Lemma add_schema_closed client (s : SchemaInfo) :
  add_schema_to_chroma get_ollama_embedding client s
  = let collection := default ∅ (client !! collection_name) in
    match documents_of s with
    | [] => (<[collection_name := collection]> client, Ok ())
    | _ =>
        match comprehension get_ollama_embedding (documents_of s) with
        | Ok embeddings =>
            (<[collection_name :=
                 upsert (documents_of s) (metadatas_of s) (ids_of s) embeddings collection]>
               client, Ok ())
        | Raise e => (<[collection_name := collection]> client, Raise e)
        end
    end.
Proof.
  unfold add_schema_to_chroma. rewrite build_documents_closed. simpl.
  destruct (documents_of s); [done|].
  destruct (comprehension _ _); [|done].
  by rewrite insert_insert_eq.
Qed.

(** A second run on the store the first run left returns that store and
    the same outcome. *)
Lemma add_schema_idempotent client (s : SchemaInfo) :
  add_schema_to_chroma get_ollama_embedding
    (add_schema_to_chroma get_ollama_embedding client s).1 s
  = add_schema_to_chroma get_ollama_embedding client s.
Proof.
  rewrite !add_schema_closed. cbv zeta.
  pose proof (upsert_idempotent (documents_of s) (metadatas_of s) (ids_of s)) as Hup.
  destruct (documents_of s) as [|d ds].
  - cbn [fst]. by rewrite lookup_insert_eq, insert_insert_eq.
  - destruct (comprehension _ _) as [es|e]; cbn [fst].
    + set (u := upsert _ _ _ es (default ∅ (client !! collection_name))).
      rewrite lookup_insert_eq.
      change (default ∅ (Some u)) with u. subst u.
      by rewrite Hup, insert_insert_eq.
    + by rewrite lookup_insert_eq, insert_insert_eq.
Qed.

End StoreFacts.

(** ** Document ids *)

Section IdFacts.

Lemma contains_char_cons_intro (c d : ascii) (s : string) :
  c <> d -> contains (String c "") s = false ->
  contains (String c "") (String d s) = false.
Proof.
  intros Hne H. simpl. rewrite decide_False by done. simpl.
  destruct s; done.
Qed.

Lemma digits_no_underscore_go (x : N) (s : string) :
  contains "_" s = false -> contains "_" (pretty_N_go x s) = false.
Proof.
  revert s. induction (N.lt_wf_0 x) as [x _ IH]; intros s Hs.
  assert (x = 0 \/ 0 < x)%N as [->|Hx] by lia.
  - by rewrite pretty_N_go_0.
  - rewrite pretty_N_go_step by done. apply IH.
    { by apply N.div_lt. }
    apply contains_char_cons_intro; [|done].
    unfold pretty_N_char. by repeat case_match.
Qed.

(** [str(i)] is made of decimal digits. *)
Lemma str_nat_no_underscore (i : nat) : contains "_" (str_nat i) = false.
Proof.
  unfold str_nat, pretty, pretty_nat, pretty, pretty_N.
  case_decide; [done|]. by apply digits_no_underscore_go.
Qed.

(** The text after the last underscore is determined. *)
Lemma after_last_underscore (a a' p p' : string) :
  contains "_" p = false -> contains "_" p' = false ->
  a +:+ "_" +:+ p = a' +:+ "_" +:+ p' -> p = p'.
Proof.
  intros Hp Hp'. revert a'. induction a as [|c a IH]; intros [|c' a'] E.
  - by injection E.
  - injection E as _ E. rewrite sapp_nil_l in E.
    rewrite E, (contains_mid "_" a' p') in Hp. done.
  - injection E as _ E. rewrite sapp_nil_l in E.
    rewrite <- E, (contains_mid "_" a p) in Hp'. done.
  - injection E as _ E. by apply (IH a').
Qed.

(** A table document's id determines the ordinal. *)
Lemma table_id_ordinal (n n' : string) (i i' : nat) :
  table_id n i = table_id n' i' -> i = i'.
Proof.
  unfold table_id. intros E. apply (inj (String.app "schema_table_")) in E.
  apply after_last_underscore in E; auto using str_nat_no_underscore.
  by apply (inj pretty) in E.
Qed.

Lemma rel_id_ordinal (i i' : nat) : rel_id i = rel_id i' -> i = i'.
Proof.
  unfold rel_id. intros E. apply (inj (String.app "schema_rel_")) in E.
  by apply (inj pretty) in E.
Qed.

Lemma table_id_not_rel_id (n : string) (i i' : nat) : table_id n i <> rel_id i'.
Proof. unfold table_id, rel_id. intros E. discriminate E. Qed.

Lemma NoDup_imap_ordinal {A} (f : nat -> A -> string) (l : list A) :
  (forall i j x y, f i x = f j y -> i = j) -> NoDup (imap f l).
Proof.
  intros Hf. apply NoDup_alt. intros i j k Hi Hj.
  apply list_lookup_imap_Some in Hi as (x & _ & ->).
  apply list_lookup_imap_Some in Hj as (y & _ & E).
  by eapply Hf.
Qed.

(** The ids of one batch are pairwise distinct. *)
Lemma ids_NoDup (s : SchemaInfo) : NoDup (ids_of s).
Proof.
  unfold ids_of. apply NoDup_app. split_and!.
  - apply NoDup_imap_ordinal. intros i j x y. apply table_id_ordinal.
  - intros k [i [t [-> _]]]%elem_of_lookup_imap [j [r [E _]]]%elem_of_lookup_imap.
    by apply table_id_not_rel_id in E.
  - apply NoDup_imap_ordinal. intros i j x y. apply rel_id_ordinal.
Qed.

End IdFacts.

(** ** What an indexing run leaves in the store *)

Section IndexingFacts.

Context {Vec : Type}.

Lemma comprehension_lookup {A B} (f : A -> result B) (xs : list A) (ys : list B)
    (j : nat) (x : A) :
  comprehension f xs = Ok ys -> xs !! j = Some x ->
  exists y, f x = Ok y /\ ys !! j = Some y.
Proof.
  revert ys j. induction xs as [|x0 xs IH]; intros ys j H Hj; [done|].
  simpl in H. destruct (f x0) as [y0|e] eqn:Hf; [|done].
  destruct (comprehension f xs) as [ys'|e]; [|done].
  injection H as <-. destruct j as [|j].
  - injection Hj as <-. by exists y0.
  - by apply (IH ys' j).
Qed.

Lemma batch_lookup_absent (documents : list string) (metadatas : list Metadata)
    (ids : list string) (embeddings : list Vec) (k : string) :
  k ∉ ids -> batch_lookup documents metadatas ids embeddings k = None.
Proof.
  revert metadatas ids embeddings.
  induction documents as [|d documents IH];
    intros [|m metadatas] [|i ids] [|e embeddings] Hk; try done.
  apply not_elem_of_cons in Hk as [Hne Hk].
  simpl. rewrite IH by done. by rewrite decide_False.
Qed.

Lemma batch_lookup_nth (documents : list string) (metadatas : list Metadata)
    (ids : list string) (embeddings : list Vec) (j : nat)
    (k d : string) (m : Metadata) (e : Vec) :
  NoDup ids ->
  ids !! j = Some k -> documents !! j = Some d ->
  metadatas !! j = Some m -> embeddings !! j = Some e ->
  batch_lookup documents metadatas ids embeddings k
  = Some {| e_embedding := e; e_document := d; e_metadata := m |}.
Proof.
  revert metadatas ids embeddings j.
  induction documents as [|d0 documents IH];
    intros [|m0 metadatas] [|i0 ids] [|e0 embeddings] j Hnd Hk Hd Hm He;
    try done.
  apply NoDup_cons in Hnd as [Hi0 Hnd].
  destruct j as [|j]; simpl in *.
  - injection Hk as ->. injection Hd as ->. injection Hm as ->. injection He as ->.
    rewrite batch_lookup_absent by done. by rewrite decide_True.
  - by rewrite (IH metadatas ids embeddings j).
Qed.

Variable get_ollama_embedding : string -> result Vec.

(** After a successful run the collection holds, under the id at each
    position of the batch, the document and the metadata at that
    position and the embedding of that document. *)
Lemma add_schema_stores (client client1 : gmap string (gmap string (Entry Vec)))
    (s : SchemaInfo) (j : nat) (k : string) :
  add_schema_to_chroma get_ollama_embedding client s = (client1, Ok ()) ->
  ids_of s !! j = Some k ->
  exists collection d m v,
    client1 !! collection_name = Some collection /\
    documents_of s !! j = Some d /\
    metadatas_of s !! j = Some m /\
    get_ollama_embedding d = Ok v /\
    collection !! k = Some {| e_embedding := v; e_document := d; e_metadata := m |}.
Proof.
  rewrite add_schema_closed. cbv zeta. intros H Hk.
  assert (exists d, documents_of s !! j = Some d) as [d Hd].
  { apply lookup_lt_is_Some. apply lookup_lt_Some in Hk.
    unfold ids_of, documents_of in *.
    rewrite length_app, !length_imap in *. done. }
  assert (exists m, metadatas_of s !! j = Some m) as [m Hm].
  { apply lookup_lt_is_Some. apply lookup_lt_Some in Hk.
    unfold ids_of, metadatas_of in *.
    rewrite length_app, !length_imap in *. done. }
  pose proof (fun es => batch_lookup_nth (documents_of s) (metadatas_of s) (ids_of s)
                es j k d m) as Hb.
  pose proof (fun (es : list Vec) c =>
                upsert_lookup (documents_of s) (metadatas_of s) (ids_of s)
                  es c k) as Hu.
  pose proof (fun es => comprehension_lookup get_ollama_embedding (documents_of s)
                es j d) as Hcl.
  destruct (documents_of s) as [|d0 ds]; [done|].
  destruct (comprehension _ _) as [es|e]; [|done].
  destruct (Hcl es eq_refl Hd) as (v & Hv & Hes).
  set (u := upsert _ _ _ es _) in H. injection H as <-.
  exists u, d, m, v. rewrite lookup_insert_eq. split_and!; try done.
  subst u. rewrite Hu, (Hb es v); auto using ids_NoDup.
Qed.

End IndexingFacts.

(** ** Determinism of the builder and idempotence of indexing *)

Section Reindexing.

Context {Vec : Type}.
Implicit Types client : gmap string (gmap string (Entry Vec)).

(** C5: the document-building step is a function of the snapshot alone.
    The three lists it builds are the closed forms over the snapshot, and
    in any two indexing runs on the same snapshot, whatever the store
    held before and whatever the embedding provider answered, the same
    document text with the same metadata ends up under each id. *)
Theorem builder_deterministic (s : SchemaInfo)
    (embedding1 embedding2 : string -> result Vec) client1 client2 after1 after2 :
  add_schema_to_chroma embedding1 client1 s = (after1, Ok ()) ->
  add_schema_to_chroma embedding2 client2 s = (after2, Ok ()) ->
  build_documents s = (documents_of s, metadatas_of s, ids_of s) /\
  forall (j : nat) (k : string),
    ids_of s !! j = Some k ->
    exists collection1 collection2 d m v1 v2,
      after1 !! collection_name = Some collection1 /\
      after2 !! collection_name = Some collection2 /\
      documents_of s !! j = Some d /\
      collection1 !! k = Some {| e_embedding := v1; e_document := d; e_metadata := m |} /\
      collection2 !! k = Some {| e_embedding := v2; e_document := d; e_metadata := m |}.
Proof.
  intros H1 H2. split; [apply build_documents_closed|].
  intros j k Hk.
  destruct (add_schema_stores _ _ _ _ _ _ H1 Hk) as (c1 & d & m & v1 & Hc1 & Hd & Hm & _ & Hk1).
  destruct (add_schema_stores _ _ _ _ _ _ H2 Hk) as (c2 & d' & m' & v2 & Hc2 & Hd' & Hm' & _ & Hk2).
  rewrite Hd in Hd'. injection Hd' as <-.
  rewrite Hm in Hm'. injection Hm' as <-.
  by exists c1, c2, d, m, v1, v2.
Qed.

Lemma snapshot_ids (ss : StructuredSchema) :
  ids_of (as_schema_info ss)
  = imap (fun i t => table_id (name t) i) (tables ss)
    ++ imap (fun i _ => rel_id i) (relationships ss).
Proof. unfold ids_of, as_schema_info, tables_of, rels_of. simpl. by rewrite !imap_fmap. Qed.

(** C6: the id of the table document at position [i] is
    [schema_table_<name>_<i>], the id of the relationship document at
    position [i] is [schema_rel_<i>], the ids of one snapshot are
    pairwise distinct, and indexing the same snapshot a second time
    leaves the store exactly as the first run left it: after a run that
    succeeded, each id of the snapshot holds its document, its metadata
    and the embedding of its document, and the second run returns the
    same store with the same outcome. *)
Theorem reindexing_idempotent (get_ollama_embedding : string -> result Vec)
    client (ss : StructuredSchema) :
  let ids := (build_documents (as_schema_info ss)).2 in
  let first_run := add_schema_to_chroma get_ollama_embedding client (as_schema_info ss) in
  ids = imap (fun i t => table_id (name t) i) (tables ss)
        ++ imap (fun i _ => rel_id i) (relationships ss) /\
  NoDup ids /\
  add_schema_to_chroma get_ollama_embedding first_run.1 (as_schema_info ss) = first_run /\
  (first_run.2 = Ok () ->
   forall (j : nat) (k : string),
     ids !! j = Some k ->
     exists collection d m v,
       first_run.1 !! collection_name = Some collection /\
       documents_of (as_schema_info ss) !! j = Some d /\
       get_ollama_embedding d = Ok v /\
       collection !! k = Some {| e_embedding := v; e_document := d; e_metadata := m |}).
Proof.
  intros ids first_run. unfold ids. rewrite build_documents_closed. simpl. split_and!.
  - apply snapshot_ids.
  - apply ids_NoDup.
  - apply add_schema_idempotent.
  - intros Hok j k Hk.
    destruct (add_schema_stores get_ollama_embedding client first_run.1
                (as_schema_info ss) j k) as (c & d & m & v & Hc & Hd & _ & Hv & Hkc);
      [|done|by exists c, d, m, v].
    unfold first_run in *.
    by destruct (add_schema_to_chroma _ _ _) as [c1 [[]|]]; simplify_eq/=.
Qed.

(** Starting the application again on the same database leaves the store
    as the first start left it. *)
Lemma startup_idempotent {Dist Value} (W : World Vec Dist Value) client :
  startup_event W (startup_event W client) = startup_event W client.
Proof.
  unfold startup_event.
  destruct (get_structured_db_schema _ _) as [ss|e]; [|done].
  destruct (match error ss with Some _ => _ | None => _ end); [done|].
  by rewrite add_schema_idempotent.
Qed.

End Reindexing.

Lemma builder_deterministic_witness :
  exists after1 after2,
    add_schema_to_chroma toy_embedding ∅ (as_schema_info company_snapshot)
    = (after1, Ok ()) /\
    add_schema_to_chroma (fun _ => Ok 7) {[ collection_name := ∅ ]}
      (as_schema_info company_snapshot) = (after2, Ok ()) /\
    exists collection1 collection2 d m v1 v2,
      after1 !! collection_name = Some collection1 /\
      after2 !! collection_name = Some collection2 /\
      documents_of (as_schema_info company_snapshot) !! 2 = Some d /\
      collection1 !! "schema_rel_0"
      = Some {| e_embedding := v1; e_document := d; e_metadata := m |} /\
      collection2 !! "schema_rel_0"
      = Some {| e_embedding := v2; e_document := d; e_metadata := m |}.
Proof.
  eexists _, _. split; [reflexivity|]. split; [reflexivity|].
  refine (proj2 (builder_deterministic (as_schema_info company_snapshot)
                   toy_embedding (fun _ => Ok 7) ∅ {[ collection_name := ∅ ]} _ _
                   eq_refl eq_refl) 2 "schema_rel_0" _).
  vm_compute. reflexivity.
Defined.

Lemma reindexing_idempotent_witness :
  let first_run := add_schema_to_chroma toy_embedding ∅ (as_schema_info company_snapshot) in
  first_run.2 = Ok () /\
  (build_documents (as_schema_info company_snapshot)).2
  = ["schema_table_Departments_0"; "schema_table_Employees_1"; "schema_rel_0"] /\
  add_schema_to_chroma toy_embedding first_run.1 (as_schema_info company_snapshot)
  = first_run /\
  exists collection d m v,
    first_run.1 !! collection_name = Some collection /\
    documents_of (as_schema_info company_snapshot) !! 2 = Some d /\
    toy_embedding d = Ok v /\
    collection !! "schema_rel_0"
    = Some {| e_embedding := v; e_document := d; e_metadata := m |}.
Proof.
  intros first_run.
  destruct (reindexing_idempotent toy_embedding ∅ company_snapshot)
    as (Hids & _ & Hagain & Hstored).
  split; [reflexivity|].
  split; [rewrite Hids; vm_compute; reflexivity|].
  split; [exact Hagain|].
  apply (Hstored eq_refl 2 "schema_rel_0"). vm_compute. reflexivity.
Defined.

(** ** Stripping and slicing *)

Section StripFacts.

Lemma rev_app_spec (s t : string) : String.rev_app s t = String.rev s +:+ t.
Proof.
  unfold String.rev. revert t. induction s as [|c s IH]; intros t; [done|].
  simpl. rewrite (IH (String c "")), IH, sapp_assoc. done.
Qed.

Lemma rev_cons (c : ascii) (s : string) :
  String.rev (String c s) = String.rev s +:+ String c "".
Proof. unfold String.rev at 1. simpl. apply rev_app_spec. Qed.

Lemma rev_app (s t : string) : String.rev (s +:+ t) = String.rev t +:+ String.rev s.
Proof.
  induction s as [|c s IH].
  - by rewrite sapp_nil_l, sapp_nil_r.
  - by rewrite sapp_cons, !rev_cons, IH, sapp_assoc.
Qed.

Lemma rev_involutive (s : string) : String.rev (String.rev s) = s.
Proof.
  induction s as [|c s IH]; [done|].
  by rewrite rev_cons, rev_app, IH.
Qed.

Lemma lstrip_idempotent (s : string) : lstrip (lstrip s) = lstrip s.
Proof.
  induction s as [|c s IH]; [done|].
  simpl. destruct (is_space c) eqn:E; [done|]. simpl. by rewrite E.
Qed.

Lemma lstrip_snoc (s : string) (c : ascii) :
  is_space c = false -> lstrip (s +:+ String c "") = lstrip s +:+ String c "".
Proof.
  intros Hc. induction s as [|d s IH].
  - simpl. rewrite sapp_nil_l. simpl. by rewrite Hc.
  - rewrite sapp_cons. simpl. by destruct (is_space d).
Qed.

Lemma rstrip_idempotent (s : string) : rstrip (rstrip s) = rstrip s.
Proof. unfold rstrip. by rewrite rev_involutive, lstrip_idempotent. Qed.

Lemma rstrip_cons (c : ascii) (s : string) :
  is_space c = false -> exists s', rstrip (String c s) = String c s'.
Proof.
  intros Hc. unfold rstrip. rewrite rev_cons, lstrip_snoc by done.
  rewrite rev_app. by eexists.
Qed.

(** The result of [strip] has no leading and no trailing whitespace:
    stripping it again, on either side, changes nothing. *)
Lemma strip_clean (s : string) :
  lstrip (strip s) = strip s /\ rstrip (strip s) = strip s.
Proof.
  unfold strip. split; [|apply rstrip_idempotent].
  destruct (lstrip s) as [|c t] eqn:E; [done|].
  assert (is_space c = false) as Hc.
  { pose proof (lstrip_idempotent s) as Hi. rewrite E in Hi. simpl in Hi.
    destruct (is_space c); [|done].
    assert (String.length (lstrip t) <= String.length t) as Hle.
    { clear. induction t as [|d t IH]; simpl; [lia|].
      destruct (is_space d); simpl; lia. }
    rewrite Hi in Hle. simpl in Hle. lia. }
  destruct (rstrip_cons c t Hc) as [t' ->]. simpl. by rewrite Hc.
Qed.

Lemma strip_idempotent (s : string) : strip (strip s) = strip s.
Proof.
  destruct (strip_clean s) as [Hl Hr]. unfold strip at 1. by rewrite Hl, Hr.
Qed.

Lemma lstrip_suffix (s : string) : exists p, s = p +:+ lstrip s.
Proof.
  induction s as [|c s [p IH]]; [by exists ""|].
  simpl. destruct (is_space c).
  - exists (String c p). by rewrite sapp_cons, <- IH.
  - by exists "".
Qed.

Lemma rstrip_prefix (s : string) : exists r, s = rstrip s +:+ r.
Proof.
  unfold rstrip. destruct (lstrip_suffix (String.rev s)) as [p Hp].
  exists (String.rev p).
  rewrite <- rev_app, <- Hp. by rewrite rev_involutive.
Qed.

Lemma startswith_app_l (n p r : string) :
  startswith n p = true -> startswith n (p +:+ r) = true.
Proof.
  intros [q ->]%startswith_app_inv. rewrite sapp_assoc. apply startswith_app.
Qed.

Lemma contains_unfold (n : string) (c : ascii) (s : string) :
  contains n (String c s) = startswith n (String c s) || contains n s.
Proof. reflexivity. Qed.

Lemma contains_app_l (n p r : string) :
  contains n p = true -> contains n (p +:+ r) = true.
Proof.
  induction p as [|c p IH]; intros H.
  - destruct n; [|done]. rewrite sapp_nil_l. by destruct r.
  - rewrite contains_unfold in H. rewrite sapp_cons, contains_unfold.
    apply orb_true_iff in H as [H|H].
    + by rewrite <- sapp_cons, (startswith_app_l n (String c p) r H).
    + rewrite IH by done. apply orb_true_r.
Qed.

(** Stripping never introduces text. *)
Lemma strip_contains (n s : string) :
  contains n s = false -> contains n (strip s) = false.
Proof.
  intros H. destruct (contains n (strip s)) eqn:E; [|done].
  unfold strip in E.
  destruct (rstrip_prefix (lstrip s)) as [r Hr].
  destruct (lstrip_suffix s) as [p Hp].
  apply (contains_app_l _ _ r) in E. rewrite <- Hr in E.
  apply (contains_skip _ p) in E. rewrite <- Hp in E. congruence.
Qed.

Lemma drop_app (p r : string) : drop (String.length p) (p +:+ r) = r.
Proof. induction p as [|c p IH]; [done|]. by rewrite sapp_cons. Qed.

Lemma take_app (p r : string) : take (String.length p) (p +:+ r) = p.
Proof. induction p as [|c p IH]; [done|]. rewrite sapp_cons. simpl. by rewrite IH. Qed.

Lemma slice_app (p body q : string) :
  slice (String.length p) (String.length q) (p +:+ body +:+ q) = body.
Proof.
  unfold slice. rewrite drop_app, !slength_app.
  replace (String.length p + (String.length body + String.length q)
           - String.length q - String.length p) with (String.length body) by lia.
  apply take_app.
Qed.

Lemma endswith_app (s q : string) : endswith q (s +:+ q) = true.
Proof. unfold endswith. rewrite rev_app. apply startswith_app. Qed.

End StripFacts.

(** ** The request pipeline *)

Section PromptFacts.

Lemma startswith_app_both (a n h : string) :
  startswith n h = true -> startswith (a +:+ n) (a +:+ h) = true.
Proof.
  intros H. induction a as [|c a IH]; [done|].
  rewrite !sapp_cons. simpl. by rewrite decide_True.
Qed.

Lemma contains_of_startswith (n h : string) :
  startswith n h = true -> contains n h = true.
Proof. intros H. destruct h; simpl; by rewrite H. Qed.

(** C8: the assembled prompt is one string that names the dialect,
    carries the schema context inside a [```sql] fenced block, carries
    the question as given, and tells the generation step to return only
    the SQL query. *)
Theorem prompt_contract (llm_db_type schema_context question : string) :
  let prompt := full_prompt_for_ollama llm_db_type schema_context question in
  contains llm_db_type prompt = true /\
  contains ("```sql" +:+ LF +:+ schema_context +:+ LF +:+ "```") prompt = true /\
  contains question prompt = true /\
  contains "You must only return the SQL query and nothing else." prompt = true.
Proof.
  intros prompt. unfold prompt, full_prompt_for_ollama.
  split_and!.
  - do 4 apply contains_skip. apply contains_here.
  - do 14 apply contains_skip. apply contains_of_startswith.
    do 4 apply startswith_app_both. apply startswith_app.
  - do 23 apply contains_skip. apply contains_here.
  - do 7 apply contains_skip. apply contains_here.
Qed.

(** The payload sent to the gateway is the prompt after [strip()]
    (line 269): the line feed before the first line and the whitespace
    after the question are gone, the rest is untouched. *)
Example payload_is_stripped :
  strip (full_prompt_for_ollama "sqlite" "CREATE TABLE t (" "How many rows?  ")
  = "You are an expert SQL query generator." +:+ LF +:+
    "Your task is to convert natural language questions into SQL queries for a sqlite database."
    +:+ LF +:+
    "You must only return the SQL query and nothing else." +:+ LF +:+
    "Focus only on the tables and columns provided in the schema below that are relevant to the user's question."
    +:+ LF +:+ LF +:+
    "Here is the database schema:" +:+ LF +:+
    "```sql" +:+ LF +:+ "CREATE TABLE t (" +:+ LF +:+ "```" +:+ LF +:+ LF +:+
    "Based on this schema, generate a SQL query for the following natural language question:"
    +:+ LF +:+ "How many rows?".
Proof. vm_compute. reflexivity. Qed.

End PromptFacts.

Section ServingFacts.

Context {Vec Dist Value : Type}.
Implicit Types W : World Vec Dist Value.

Lemma get_db_schema_ok (connect : string -> result Inspector) (uri full : string) :
  db_schema_body connect uri = Ok full -> get_db_schema connect uri = Ok full.
Proof. unfold get_db_schema. by intros ->. Qed.

(** C4, as the code has it: on the serving path a schema-introspection
    failure fails the request.  The endpoint raises [HTTPException] with
    status 500 and the error text of [get_db_schema] as detail, before
    the index is consulted. *)
Theorem introspection_failure_fails_request W (user_query : string) (e : exn) :
  introspection_failure (connect W) (DATABASE_URI W) = Some e ->
  query_database W user_query
  = Raise (HTTPException 500
             ("Error: Could not retrieve database schema. Details: " +:+ exn_str e)).
Proof.
  intros H. unfold query_database.
  rewrite (get_db_schema_failure _ _ _ H), bind_Ok. reflexivity.
Qed.

Lemma retrieval_empty W (client : gmap string (gmap string (Entry Vec)))
    (user_query : string) :
  index_yields_nothing W client user_query ->
  query_schema_from_chroma (get_ollama_embedding W) (collection_query W)
    client user_query 5 = Ok [].
Proof.
  unfold index_yields_nothing, query_schema_from_chroma, get_collection.
  destruct (client !! collection_name) as [collection|]; [|done].
  intros (v & results & -> & Hq & Hn). rewrite bind_Ok, Hq, bind_Ok.
  unfold no_documents in Hn.
  destruct (qr_documents results) as [[|[|d docs0] rest]|]; done.
Qed.

(** C2: when the index has nothing for the question (the collection is
    absent, or the query returns no document), the retriever returns the
    empty list without raising, and the request goes on to the generation
    step with a prompt whose schema context is the full schema text: the
    lines of every table of the database, in order, joined by line
    feeds. *)
Theorem retrieval_fallback W (client : gmap string (gmap string (Entry Vec)))
    (user_query : string) :
  introspection_failure (connect W) (DATABASE_URI W) = None ->
  initialize_chroma_client W = Ok client ->
  index_yields_nothing W client user_query ->
  query_schema_from_chroma (get_ollama_embedding W) (collection_query W)
    client user_query 5 = Ok [] /\
  exists insp ts lss,
    connect W (DATABASE_URI W) = Ok insp /\
    get_table_names insp = Ok ts /\
    Forall2 (renders_lines insp) ts lss /\
    get_db_schema (connect W) (DATABASE_URI W) = Ok (join LF (List.concat lss)) /\
    query_database W user_query
    = generate_and_execute W
        (full_prompt_for_ollama (llm_db_type_of (DATABASE_URI W))
           (join LF (List.concat lss)) user_query).
Proof.
  intros Hf Hc Hz. pose proof (retrieval_empty W client user_query Hz) as Hr.
  split; [done|].
  pose proof (db_schema_body_failure (connect W) (DATABASE_URI W)) as Hb.
  rewrite Hf in Hb. destruct Hb as [full Hb].
  pose proof (db_schema_not_error _ _ _ Hb) as Hne.
  pose proof (get_db_schema_ok _ _ _ Hb) as Hg.
  apply db_schema_body_inv in Hb as (insp & ts & lss & Hi & Hts & Hlss & ->).
  exists insp, ts, lss. split_and!; try done.
  unfold query_database, retrieve.
  by rewrite Hg, bind_Ok, Hne, Hc, bind_Ok, Hr, bind_Ok.
Qed.

Lemma py_getitem_get (fields : list (string * json)) (k : string) :
  truthy (default JNull (lookup_field k fields)) = true ->
  py_getitem (JObj fields) k = Ok (default JNull (lookup_field k fields)).
Proof. simpl. by destruct (lookup_field k fields). Qed.

(** The loop leaves [generated_sql] as it was when every output lacks a
    message. *)
Lemma extract_loop_none (outputs : list json) (generated_sql : string) :
  forallb lacks_message outputs = true ->
  extract_loop outputs generated_sql = Ok generated_sql.
Proof.
  induction outputs as [|output outputs IH]; [done|].
  intros [Ho Hrest]%andb_true_iff. specialize (IH Hrest).
  destruct output as [| | | | |fields]; try done.
  unfold lacks_message in Ho.
  cbn [extract_loop py_get]. rewrite bind_Ok.
  destruct (truthy (default JNull (lookup_field "results" fields))) eqn:Hr.
  - rewrite (py_getitem_get _ _ Hr), bind_Ok.
    destruct (default JNull (lookup_field "results" fields))
      as [| | | | |rfields]; try done.
    unfold py_get. rewrite !bind_Ok.
    apply negb_true_iff in Ho. by rewrite Ho.
  - by rewrite bind_Ok.
Qed.

Lemma extract_sql_none (langflow_result : json) :
  no_sql_text langflow_result = true ->
  extract_sql langflow_result = Ok extraction_sentinel.
Proof.
  unfold no_sql_text, extract_sql.
  destruct (truthy langflow_result) eqn:Ht; [|done].
  destruct langflow_result as [| | | | |fields]; try done.
  cbn [negb orb py_get]. rewrite bind_Ok.
  destruct (truthy (default JNull (lookup_field "outputs" fields))) eqn:Ho; [|done].
  rewrite (py_getitem_get _ _ Ho), bind_Ok. cbn [negb orb].
  destruct (default JNull (lookup_field "outputs" fields)) as [| | | |items|]; try done.
  cbn [py_iter]. rewrite bind_Ok. apply extract_loop_none.
Qed.

(** The sentinel is not changed by the cleanup: it has no fence. *)
Lemma cleanup_sentinel : cleanup extraction_sentinel = extraction_sentinel.
Proof. reflexivity. Qed.

(** C1, where the code departs from it: when no SQL text can be located
    in the gateway's answer, the request is not failed at that point.  It
    goes on with the substitute text of line 288 as the statement: the
    text is handed to the executor, and the outcome of the request is the
    outcome of executing it, a success response carrying the substitute
    text as [sql_query] when the executor answers. *)
Theorem unextractable_answer_is_executed W (prompt : string) (langflow_result : json) :
  (forall headers,
     langflow_post W (LANGFLOW_API_URL W) (strip prompt) headers = Ok langflow_result) ->
  no_sql_text langflow_result = true ->
  generate_and_execute W prompt
  = match run_query W "Error: Could not extract SQL from Langflow response." with
    | Ok rows =>
        Ok {| sql_query := "Error: Could not extract SQL from Langflow response.";
              query_result := rows |}
    | Raise db_error =>
        Raise (HTTPException 500
                 ("An unexpected error occurred: 500: Database query failed. Possible invalid SQL: "
                  +:+ exn_str db_error))
    end.
Proof.
  intros Hp Hn. unfold generate_and_execute.
  rewrite Hp, bind_Ok, (extract_sql_none _ Hn), bind_Ok, cleanup_sentinel.
  change extraction_sentinel
    with "Error: Could not extract SQL from Langflow response.".
  destruct (run_query W _) as [rows|db_error]; [done|].
  cbn [try_except]. rewrite bind_Raise. reflexivity.
Qed.

(** The first half of C1: a text wrapped in a [```sql] fence is cleaned
    to the inner text with the fence markers and the outer whitespace
    removed. *)
Lemma cleanup_fenced (body : string) :
  cleanup (fence_open +:+ body +:+ fence_close) = strip body /\
  lstrip (strip body) = strip body /\
  rstrip (strip body) = strip body /\
  (contains fence_close body = false -> contains fence_close (strip body) = false).
Proof.
  split_and!.
  - unfold cleanup.
    rewrite startswith_app, <- sapp_assoc, endswith_app, sapp_assoc.
    by rewrite slice_app.
  - apply strip_clean.
  - apply strip_clean.
  - apply strip_contains.
Qed.

(** The text the loop extracts from an answer of the expected shape. *)
Lemma extract_answer (text : string) :
  extract_sql (answer_with text) = Ok (strip text).
Proof. reflexivity. Qed.

End ServingFacts.

Lemma introspection_failure_fails_request_witness :
introspection_failure unreachable "sqlite:///./my_test_database.db"
= Some (PyExn OtherException "unable to open database file") /\
query_database (world unreachable indexed_store (Ok (answer_with "SELECT 1")))
  "List all employees"
= Raise (HTTPException 500
           "Error: Could not retrieve database schema. Details: unable to open database file").
Proof.
split; [reflexivity|].
apply (introspection_failure_fails_request
         (world unreachable indexed_store (Ok (answer_with "SELECT 1")))
         "List all employees" (PyExn OtherException "unable to open database file")).
reflexivity.
Defined.

(** C4, as stated, fails: with the schema indexed at an earlier startup
  and the database unreachable at request time, the request is answered
  with an error instead of falling back to the indexed state. *)
Lemma serving_fallback_counterexample :
(exists collection, indexed_store !! collection_name = Some collection /\
                    size collection = 3) /\
introspection_failure unreachable "sqlite:///./my_test_database.db"
= Some (PyExn OtherException "unable to open database file") /\
is_ok (query_database (world unreachable indexed_store (Ok (answer_with "SELECT 1")))
         "List all employees") = false /\
is_ok (query_database (world unreachable ∅ (Ok (answer_with "SELECT 1")))
         "List all employees") = false.
Proof.
split_and!; try reflexivity.
eexists. split; [reflexivity|]. vm_compute. reflexivity.
Qed.

Lemma retrieval_fallback_witness :
let W := world (fun _ => Ok company_db) {[ collection_name := ∅ ]}
           (Ok (answer_with "SELECT 1")) in
index_yields_nothing W {[ collection_name := ∅ ]} "List all employees" /\
query_schema_from_chroma (get_ollama_embedding W) (collection_query W)
  {[ collection_name := ∅ ]} "List all employees" 5 = Ok [] /\
exists insp ts lss,
  connect W (DATABASE_URI W) = Ok insp /\
  get_table_names insp = Ok ts /\
  Forall2 (renders_lines insp) ts lss /\
  get_db_schema (connect W) (DATABASE_URI W) = Ok (join LF (List.concat lss)) /\
  query_database W "List all employees"
  = generate_and_execute W
      (full_prompt_for_ollama (llm_db_type_of (DATABASE_URI W))
         (join LF (List.concat lss)) "List all employees").
Proof.
intros W.
assert (index_yields_nothing W {[ collection_name := ∅ ]} "List all employees") as Hz.
{ exists 18, {| qr_documents := Some [[]]; qr_metadatas := [[]]; qr_distances := [[]] |}.
  split; [reflexivity|]. split; reflexivity. }
split; [exact Hz|].
apply (retrieval_fallback W {[ collection_name := ∅ ]} "List all employees");
  [reflexivity | reflexivity | exact Hz].
Defined.

Lemma unextractable_answer_is_executed_witness :
  let W := world (fun _ => Ok company_db) ∅ (Ok (JObj [("outputs", JArr [])])) in
  no_sql_text (JObj [("outputs", JArr [])]) = true /\
  generate_and_execute W
    (full_prompt_for_ollama "sqlite" (join LF (List.concat [])) "List all employees")
  = Ok {| sql_query := "Error: Could not extract SQL from Langflow response.";
          query_result := [ {[ "n" := 1%Z ]} ] |}.
Proof.
  intros W. split; [reflexivity|].
  apply (unextractable_answer_is_executed W
           (full_prompt_for_ollama "sqlite" (join LF (List.concat [])) "List all employees")
           (JObj [("outputs", JArr [])])); reflexivity.
Defined.

(** The failing input of C1, end to end: the gateway answers with no
    outputs, and the request succeeds with the substitute text as its SQL. *)
Example unextractable_request :
  no_sql_text (JObj []) = true /\
  no_sql_text (JObj [("outputs", JArr [JObj [("results", JNull)]])]) = true /\
  query_database (world (fun _ => Ok company_db) ∅ (Ok (JObj [("outputs", JArr [])])))
    "List all employees"
  = Ok {| sql_query := "Error: Could not extract SQL from Langflow response.";
          query_result := [ {[ "n" := 1%Z ]} ] |}.
Proof. split_and!; reflexivity. Qed.

(** * Further properties *)

(** ** The snapshot and the schema text in closed form *)

Section SnapshotFacts.

Lemma renders_closed (insp : Inspector) (t : string) (tbl : Table) :
  renders insp t tbl -> tbl = table_entry t (cols_of insp t) (fks_of insp t).
Proof. intros (cols & fks & Hc & Hf & ->). unfold cols_of, fks_of. by rewrite Hc, Hf. Qed.

Lemma renders_lines_closed (insp : Inspector) (t : string) (ls : list string) :
  renders_lines insp t ls -> ls = table_lines t (cols_of insp t) (fks_of insp t).
Proof. intros (cols & fks & Hc & Hf & ->). unfold cols_of, fks_of. by rewrite Hc, Hf. Qed.

Lemma Forall2_fmap_closed {A B} (R : A -> B -> Prop) (f : A -> B) (xs : list A) (ys : list B) :
  (forall x y, R x y -> y = f x) -> Forall2 R xs ys -> ys = f <$> xs.
Proof.
  intros HR. induction 1 as [|x y xs ys Hxy _ IH]; [done|].
  simpl. by rewrite (HR x y Hxy), IH.
Qed.

Lemma structured_loop_closed (insp : Inspector) (ts : list string)
    (st st' : StructuredSchema) :
  for_each (structured_table insp) ts st = Ok st' ->
  tables st' = tables st ++ tables (snapshot_of insp ts) /\
  relationships st' = relationships st ++ relationships (snapshot_of insp ts) /\
  error st' = error st.
Proof.
  revert st. induction ts as [|t ts IH]; intros st H.
  - injection H as <-. simpl. by rewrite !List.app_nil_r.
  - simpl in H. destruct (structured_table insp st t) as [st1|e] eqn:H1; [simpl in H|done].
    apply structured_table_inv in H1 as (tbl & fks & Hr & Hf & Ht & Hrel & He).
    apply IH in H as (Ht' & Hrel' & He').
    apply renders_closed in Hr as ->.
    assert (fks_of insp t = fks) as Hfks by (unfold fks_of; by rewrite Hf).
    simpl. rewrite Ht', Ht, Hrel', Hrel, He', He, Hfks.
    by rewrite <- !List.app_assoc.
Qed.

(** A snapshot that was read is the closed form over the table names. *)
Lemma structured_body_closed (connect : string -> result Inspector) (uri : string)
    (s : StructuredSchema) :
  structured_body connect uri = Ok s ->
  exists insp ts,
    connect uri = Ok insp /\ get_table_names insp = Ok ts /\ s = snapshot_of insp ts.
Proof.
  unfold structured_body.
  destruct (connect uri) as [insp|e] eqn:Hc; [simpl|done].
  destruct (get_table_names insp) as [ts|e] eqn:Ht; [simpl|done].
  intros H. apply structured_loop_closed in H as (H1 & H2 & H3).
  exists insp, ts. split_and!; try done.
  destruct s as [tbls rels err]. simpl in *. by subst.
Qed.

Lemma db_schema_body_closed (connect : string -> result Inspector) (uri full : string) :
  db_schema_body connect uri = Ok full ->
  exists insp ts,
    connect uri = Ok insp /\ get_table_names insp = Ok ts /\ full = schema_text_of insp ts.
Proof.
  intros H. apply db_schema_body_inv in H as (insp & ts & lss & Hc & Ht & Hlss & ->).
  exists insp, ts. split_and!; try done.
  unfold schema_text_of. f_equal. f_equal.
  by apply (Forall2_fmap_closed (renders_lines insp)); [apply renders_lines_closed|].
Qed.

(** The callers' tests for success, read back as success of the body. *)
Lemma structured_success (connect : string -> result Inspector) (uri : string)
    (s : StructuredSchema) :
  get_structured_db_schema connect uri = Ok s -> error s = None ->
  structured_body connect uri = Ok s.
Proof.
  unfold get_structured_db_schema.
  destruct (structured_body connect uri) as [s'|e]; simpl; [done|].
  by intros [= <-].
Qed.

Lemma db_schema_success (connect : string -> result Inspector) (uri full : string) :
  get_db_schema connect uri = Ok full -> startswith "Error" full = false ->
  db_schema_body connect uri = Ok full.
Proof.
  unfold get_db_schema.
  destruct (db_schema_body connect uri) as [s'|e]; simpl; [done|].
  by intros [= <-].
Qed.

End SnapshotFacts.

(** ** Joining lists of lines *)

Section JoinFacts.

Lemma join_cons2 (sep x y : string) (xs : list string) :
  join sep (x :: y :: xs) = x +:+ sep +:+ join sep (y :: xs).
Proof. reflexivity. Qed.

Lemma join_app (sep : string) (xs ys : list string) :
  xs <> [] -> ys <> [] ->
  join sep (xs ++ ys) = join sep xs +:+ sep +:+ join sep ys.
Proof.
  intros Hx Hy. induction xs as [|x xs IH]; [done|].
  destruct xs as [|x' xs].
  - destruct ys as [|y ys]; [done|]. reflexivity.
  - change ((x :: x' :: xs) ++ ys) with (x :: x' :: (xs ++ ys)).
    rewrite !join_cons2, sapp_assoc, sapp_assoc. do 2 f_equal.
    by apply IH.
Qed.

Lemma join_concat (sep : string) (lss : list (list string)) :
  Forall (fun ls => ls <> []) lss ->
  join sep (List.concat lss) = join sep (join sep <$> lss).
Proof.
  induction 1 as [|ls lss Hls Hall IH]; [done|].
  simpl List.concat. destruct lss as [|ls' lss].
  - simpl. by rewrite List.app_nil_r.
  - rewrite join_app; [|done|].
    + rewrite IH. reflexivity.
    + apply Forall_cons in Hall as [Hls' _]. simpl. by destruct ls'.
Qed.

Lemma join_app_fks (t : string) (pre : list string) (fks : list ForeignKey) :
  pre <> [] ->
  join LF (pre ++ (fk_constraint t <$> fks)) = join LF pre +:+ fk_lines t fks.
Proof.
  revert pre. induction fks as [|fk fks IH]; intros pre Hpre.
  - simpl. by rewrite List.app_nil_r, sapp_nil_r.
  - change (pre ++ (fk_constraint t <$> fk :: fks))
      with (pre ++ [fk_constraint t fk] ++ (fk_constraint t <$> fks)).
    rewrite List.app_assoc, IH by (by destruct pre).
    rewrite join_app by done.
    change (fk_lines t (fk :: fks)) with (LF +:+ fk_constraint t fk +:+ fk_lines t fks).
    by rewrite !sapp_assoc.
Qed.

(** The lines of one table, joined, are its DDL followed by two line
    feeds. *)
Lemma join_table_lines (t : string) (cols : list Column) (fks : list ForeignKey) :
  join LF (table_lines t cols fks) = ddl (table_entry t cols fks) +:+ LF +:+ LF.
Proof.
  unfold table_lines. rewrite List.app_assoc.
  rewrite join_app by (simpl; discriminate).
  rewrite join_app_fks by discriminate. reflexivity.
Qed.

End JoinFacts.

(** ** What the two extraction functions return *)

Section ExtractionProperties.

Variable connect : string -> result Inspector.
Variable uri : string.

(** X1: the test [full_db_schema.startswith("Error")] of the callers is
    exact.  [get_db_schema] always returns; its text starts with [Error]
    exactly when the connection could not be opened or a metadata call
    raised, whatever the tables are called, and the text of a schema that
    was read is the closed form over the table names. *)
Theorem schema_guard_exact :
  exists full,
    get_db_schema connect uri = Ok full /\
    match introspection_failure connect uri with
    | Some e =>
        startswith "Error" full = true /\
        full = "Error: Could not retrieve database schema. Details: " +:+ exn_str e
    | None =>
        startswith "Error" full = false /\
        exists insp ts,
          connect uri = Ok insp /\ get_table_names insp = Ok ts /\
          full = schema_text_of insp ts
    end.
Proof.
  pose proof (db_schema_body_failure connect uri) as Hb.
  destruct (introspection_failure connect uri) as [e|] eqn:Hf.
  - eexists. split; [by apply get_db_schema_failure|]. done.
  - destruct Hb as [full Hb]. exists full.
    split; [by apply get_db_schema_ok|].
    split; [by eapply db_schema_not_error|].
    by apply db_schema_body_closed.
Qed.

(** X2: a snapshot without an [error] key lists the tables of the
    database in the order of [get_table_names], one entry per table; the
    DDL of each entry opens with its [CREATE TABLE] line and its
    description is the table name followed by the entry's own list of
    column descriptions. *)
Theorem snapshot_tables_in_order (s : StructuredSchema) :
  get_structured_db_schema connect uri = Ok s ->
  error s = None ->
  exists insp ts,
    connect uri = Ok insp /\
    get_table_names insp = Ok ts /\
    name <$> tables s = ts /\
    Forall (fun tbl =>
              startswith ("CREATE TABLE " +:+ name tbl +:+ " (" +:+ LF) (ddl tbl) = true /\
              description tbl
              = "Table " +:+ name tbl +:+ " with columns: " +:+ join ", " (columns tbl))
           (tables s).
Proof.
  intros Hs He. apply structured_success in Hs; [|done].
  apply structured_body_closed in Hs as (insp & ts & Hc & Ht & ->).
  exists insp, ts. split_and!; try done.
  - simpl. rewrite <- list_fmap_compose. by rewrite list_fmap_id.
  - simpl. apply Forall_fmap, Forall_true. intros t. simpl. split; [|done].
    unfold base_ddl. simpl. rewrite !sapp_assoc.
    do 3 apply startswith_app_both. apply startswith_app.
Qed.

(** X3: in a snapshot without an [error] key the relationship list and
    the tables' [foreign_keys] lists carry the same descriptions in the
    same order; every relationship starts at a table of the snapshot, and
    its description names the owning table, the constrained columns, the
    referred table and the referred columns. *)
Theorem relationships_match_foreign_keys (s : StructuredSchema) :
  get_structured_db_schema connect uri = Ok s ->
  error s = None ->
  rel_description <$> relationships s = List.concat (foreign_keys <$> tables s) /\
  Forall (fun r =>
            from_table r ∈ (name <$> tables s) /\
            rel_description r
            = from_table r +:+ "." +:+ join ", " (from_columns r) +:+ " -> "
              +:+ to_table r +:+ "." +:+ join ", " (to_columns r))
         (relationships s).
Proof.
  intros Hs He. apply structured_success in Hs; [|done].
  apply structured_body_closed in Hs as (insp & ts & _ & _ & ->).
  simpl. clear. split.
  - induction ts as [|t ts IH]; [done|].
    rewrite !fmap_cons. simpl List.concat. rewrite fmap_app, IH. f_equal.
    simpl foreign_keys. by rewrite <- list_fmap_compose.
  - induction ts as [|t ts IH]; [constructor|].
    rewrite !fmap_cons. simpl List.concat. apply Forall_app. split.
    + apply Forall_fmap, Forall_true. intros fk. simpl. split; [|done].
      apply elem_of_cons. by left.
    + eapply Forall_impl; [exact IH|].
      intros r [Hin Hd]. split; [|done]. apply elem_of_cons. by right.
Qed.

(** X4: the two renderings agree.  When both extraction functions
    succeed, the schema text of [get_db_schema] is the DDL texts of the
    snapshot's tables, each followed by two line feeds, joined by line
    feeds. *)
Theorem renderings_agree (full : string) (s : StructuredSchema) :
  get_db_schema connect uri = Ok full ->
  startswith "Error" full = false ->
  get_structured_db_schema connect uri = Ok s ->
  error s = None ->
  full = join LF ((fun tbl => ddl tbl +:+ LF +:+ LF) <$> tables s).
Proof.
  intros Hf Hne Hs He.
  apply db_schema_success in Hf; [|done].
  apply structured_success in Hs; [|done].
  apply db_schema_body_closed in Hf as (insp & ts & Hc & Ht & ->).
  apply structured_body_closed in Hs as (insp' & ts' & Hc' & Ht' & ->).
  rewrite Hc in Hc'. injection Hc' as <-. rewrite Ht in Ht'. injection Ht' as <-.
  unfold schema_text_of. simpl.
  rewrite join_concat.
  - rewrite <- !list_fmap_compose. f_equal. apply list_fmap_ext. intros _ t _.
    apply join_table_lines.
  - apply Forall_fmap, Forall_true. intros t. done.
Qed.

End ExtractionProperties.

Lemma snapshot_tables_in_order_witness :
  get_structured_db_schema (fun _ => Ok company_db) "sqlite:///./my_test_database.db"
  = Ok company_snapshot /\
  error company_snapshot = None /\
  exists insp ts,
    Ok company_db = Ok insp /\
    get_table_names insp = Ok ts /\
    name <$> tables company_snapshot = ts /\
    Forall (fun tbl =>
              startswith ("CREATE TABLE " +:+ name tbl +:+ " (" +:+ LF) (ddl tbl) = true /\
              description tbl
              = "Table " +:+ name tbl +:+ " with columns: " +:+ join ", " (columns tbl))
           (tables company_snapshot).
Proof.
  split; [reflexivity|]. split; [reflexivity|].
  apply (snapshot_tables_in_order (fun _ => Ok company_db)
           "sqlite:///./my_test_database.db" company_snapshot); reflexivity.
Defined.

Lemma relationships_match_foreign_keys_witness :
  get_structured_db_schema (fun _ => Ok company_db) "sqlite:///./my_test_database.db"
  = Ok company_snapshot /\
  error company_snapshot = None /\
  rel_description <$> relationships company_snapshot
  = List.concat (foreign_keys <$> tables company_snapshot) /\
  Forall (fun r =>
            from_table r ∈ (name <$> tables company_snapshot) /\
            rel_description r
            = from_table r +:+ "." +:+ join ", " (from_columns r) +:+ " -> "
              +:+ to_table r +:+ "." +:+ join ", " (to_columns r))
         (relationships company_snapshot).
Proof.
  split; [reflexivity|]. split; [reflexivity|].
  apply (relationships_match_foreign_keys (fun _ => Ok company_db)
           "sqlite:///./my_test_database.db" company_snapshot); reflexivity.
Defined.

Lemma renderings_agree_witness :
  exists full,
    get_db_schema (fun _ => Ok company_db) "sqlite:///./my_test_database.db" = Ok full /\
    startswith "Error" full = false /\
    full = join LF ((fun tbl => ddl tbl +:+ LF +:+ LF) <$> tables company_snapshot).
Proof.
  eexists. split; [reflexivity|]. split; [reflexivity|].
  apply (renderings_agree (fun _ => Ok company_db)
           "sqlite:///./my_test_database.db" _ company_snapshot); reflexivity.
Defined.

(** ** What an indexing run changes and what it leaves alone *)

Section IndexingProperties.

Context {Vec : Type}.
Implicit Types (c : gmap string (Entry Vec)) (client : gmap string (gmap string (Entry Vec))).

Lemma comprehension_length {A B} (f : A -> result B) (xs : list A) (ys : list B) :
  comprehension f xs = Ok ys -> List.length ys = List.length xs.
Proof.
  revert ys. induction xs as [|x xs IH]; intros ys H.
  - by injection H as <-.
  - simpl in H. destruct (f x) as [y|e]; [|done].
    destruct (comprehension f xs) as [ys'|e]; [|done].
    injection H as <-. simpl. by rewrite (IH ys').
Qed.


Lemma upsert_dom (documents : list string) (metadatas : list Metadata)
    (ids : list string) (embeddings : list Vec) c :
  List.length documents = List.length ids ->
  List.length metadatas = List.length ids ->
  List.length embeddings = List.length ids ->
  dom (upsert documents metadatas ids embeddings c) = list_to_set ids ∪ dom c.
Proof.
  revert documents metadatas embeddings c.
  induction ids as [|i ids IH];
    intros [|d documents] [|m metadatas] [|e embeddings] c Hd Hm He;
    simplify_eq/=.
  - by rewrite (left_id_L ∅ (∪)).
  - rewrite IH by done. rewrite dom_insert_L.
    by rewrite (assoc_L (∪)), (comm_L (∪) (list_to_set ids)).
Qed.

Lemma batch_lengths (s : SchemaInfo) :
  List.length (documents_of s) = List.length (ids_of s) /\
  List.length (metadatas_of s) = List.length (ids_of s) /\
  List.length (ids_of s) = List.length (tables_of s) + List.length (rels_of s).
Proof.
  unfold documents_of, metadatas_of, ids_of.
  rewrite !length_app, !length_imap. done.
Qed.

Variable get_ollama_embedding : string -> result Vec.


(** X6: an indexing run never deletes.  Whatever its outcome, every
    entry of the collection whose id is not an id of the batch is still
    there unchanged afterwards (documents of tables that no longer exist
    stay in the index), and every other collection is as it was. *)
Theorem indexing_keeps_other_entries client (s : SchemaInfo) :
  let after := (add_schema_to_chroma get_ollama_embedding client s).1 in
  (forall other, other <> collection_name -> after !! other = client !! other) /\
  exists collection,
    after !! collection_name = Some collection /\
    forall k, k ∉ ids_of s ->
      collection !! k = default ∅ (client !! collection_name) !! k.
Proof.
  rewrite add_schema_closed. cbv zeta.
  pose proof (fun (es : list Vec) c k =>
                upsert_lookup (documents_of s) (metadatas_of s) (ids_of s) es c k) as Hu.
  pose proof (fun (es : list Vec) k =>
                batch_lookup_absent (documents_of s) (metadatas_of s) (ids_of s) es k) as Hb.
  destruct (documents_of s) as [|d ds].
  - cbn [fst]. split.
    + intros other Hne. by rewrite lookup_insert_ne.
    + eexists. by rewrite lookup_insert_eq.
  - destruct (comprehension _ _) as [es|e]; cbn [fst].
    + split.
      * intros other Hne. by rewrite lookup_insert_ne.
      * set (u := upsert _ _ _ es _). exists u. rewrite lookup_insert_eq.
        split; [done|]. intros k Hk. subst u. by rewrite Hu, Hb.
    + split.
      * intros other Hne. by rewrite lookup_insert_ne.
      * eexists. by rewrite lookup_insert_eq.
Qed.

Lemma fresh_index_closed client after (ss : StructuredSchema) :
  default ∅ (client !! collection_name) = ∅ ->
  add_schema_to_chroma get_ollama_embedding client (as_schema_info ss) = (after, Ok ()) ->
  exists collection,
    after !! collection_name = Some collection /\
    dom collection = list_to_set (ids_of (as_schema_info ss)) /\
    size collection = List.length (tables ss) + List.length (relationships ss).
Proof.
  rewrite add_schema_closed. cbv zeta. intros -> H.
  destruct (batch_lengths (as_schema_info ss)) as (Hld & Hlm & Hli).
  assert (List.length (tables_of (as_schema_info ss)) = List.length (tables ss)
          /\ List.length (rels_of (as_schema_info ss)) = List.length (relationships ss))
    as [Ht Hr].
  { unfold tables_of, rels_of. simpl. by rewrite !length_fmap. }
  pose proof (fun (es : list Vec) =>
                upsert_dom (documents_of (as_schema_info ss))
                  (metadatas_of (as_schema_info ss)) (ids_of (as_schema_info ss)) es ∅
                  Hld Hlm) as Hdom.
  pose proof (fun (es : list Vec) =>
                comprehension_length get_ollama_embedding
                  (documents_of (as_schema_info ss)) es) as Hlen.
  destruct (documents_of (as_schema_info ss)) as [|d ds] eqn:Hd.
  - injection H as <-. exists ∅. rewrite lookup_insert_eq. split; [done|].
    simpl in Hld.
    destruct (ids_of (as_schema_info ss)) as [|i ids] eqn:Hi; [|done].
    simpl in Hli. split; [by rewrite dom_empty_L|]. rewrite map_size_empty. lia.
  - destruct (comprehension _ _) as [es|e]; [|done].
    set (u := upsert _ _ _ es ∅) in *. injection H as <-.
    exists u. rewrite lookup_insert_eq. split; [done|].
    assert (dom u = list_to_set (ids_of (as_schema_info ss))) as Hu.
    { subst u. rewrite Hdom by (rewrite (Hlen es eq_refl); done).
      by rewrite dom_empty_L, (right_id_L ∅ (∪)). }
    split; [done|].
    rewrite <- size_dom, Hu, size_list_to_set by apply ids_NoDup. lia.
Qed.

(** X7: after a successful run on a snapshot, starting from a store in
    which the collection is absent or empty, the collection holds exactly
    the ids of the snapshot: one entry per table and one per relationship,
    the two numbers printed by the startup message. *)
Theorem fresh_index_contents client after (ss : StructuredSchema) :
  default ∅ (client !! collection_name) = ∅ ->
  add_schema_to_chroma get_ollama_embedding client (as_schema_info ss) = (after, Ok ()) ->
  exists collection,
    after !! collection_name = Some collection /\
    dom collection = list_to_set (ids_of (as_schema_info ss)) /\
    size collection = List.length (tables ss) + List.length (relationships ss).
Proof. apply fresh_index_closed. Qed.

End IndexingProperties.


Lemma indexing_keeps_other_entries_witness :
  let run := add_schema_to_chroma toy_embedding indexed_store
               (as_schema_info shrunk_snapshot) in
  ("schema_rel_0" ∉ ids_of (as_schema_info shrunk_snapshot)) /\
  exists collection,
    run.1 !! collection_name = Some collection /\
    collection !! "schema_rel_0"
    = default ∅ (indexed_store !! collection_name) !! "schema_rel_0" /\
    is_Some (collection !! "schema_rel_0").
Proof.
  intros run.
  assert ("schema_rel_0" ∉ ids_of (as_schema_info shrunk_snapshot)) as Hk.
  { apply (bool_decide_unpack _). vm_compute. exact I. }
  split; [exact Hk|].
  destruct (indexing_keeps_other_entries toy_embedding indexed_store
              (as_schema_info shrunk_snapshot)) as (_ & collection & Hc & Hkeep).
  exists collection. split; [exact Hc|].
  split; [exact (Hkeep _ Hk)|].
  rewrite (Hkeep _ Hk). vm_compute. eexists. reflexivity.
Defined.

Lemma fresh_index_contents_witness :
  default ∅ ((∅ : gmap string (gmap string (Entry nat))) !! collection_name) = ∅ /\
  exists after collection,
    add_schema_to_chroma toy_embedding ∅ (as_schema_info company_snapshot)
    = (after, Ok ()) /\
    after !! collection_name = Some collection /\
    dom collection = list_to_set (ids_of (as_schema_info company_snapshot)) /\
    size collection = 2 + 1.
Proof.
  assert (default ∅ ((∅ : gmap string (gmap string (Entry nat))) !! collection_name) = ∅)
    as Hfresh by (vm_compute; reflexivity).
  split; [exact Hfresh|].
  eexists.
  destruct (fresh_index_contents toy_embedding ∅ _ company_snapshot Hfresh eq_refl)
    as (collection & Hc & Hd & Hs).
  exists collection. split; [reflexivity|]. split; [exact Hc|]. split; [exact Hd|].
  exact Hs.
Defined.

(** ** The retriever on a populated index *)

Section RetrievalProperties.

Context {Vec Dist : Type}.

Lemma for_each_app {A S} (body : S -> A -> result S) (xs ys : list A) (s : S) :
  for_each body (xs ++ ys) s = for_each body xs s ≫= for_each body ys.
Proof.
  revert s. induction xs as [|x xs IH]; intros s; [done|].
  simpl. destruct (body s x) as [s'|e]; [|done]. rewrite !bind_Ok. apply IH.
Qed.

Lemma index_head {A} (x : A) (xs : list A) : index (x :: xs) 0 = Ok x.
Proof. reflexivity. Qed.

Lemma index_lookup {A} (xs : list A) (i : nat) (x : A) :
  xs !! i = Some x -> index xs i = Ok x.
Proof. unfold index. by intros ->. Qed.

Lemma snippet_step_ok (results : QueryResult Dist) (snippets : list string)
    (i : nat) (doc : string) (mds0 : list (option Metadata)) mrest
    (ds0 : list Dist) drest :
  qr_metadatas results = mds0 :: mrest ->
  qr_distances results = ds0 :: drest ->
  (exists m, mds0 !! i = Some (Some m)) ->
  is_Some (ds0 !! i) ->
  snippet_step results snippets (i, doc)
  = (_ ← first_line doc; Ok (snippets ++ [doc])).
Proof.
  intros Hm Hd [m Hmi] [d Hdi]. unfold snippet_step.
  rewrite Hm, index_head, bind_Ok, (index_lookup _ _ _ Hmi), bind_Ok.
  rewrite Hd, index_head, bind_Ok, (index_lookup _ _ _ Hdi), !bind_Ok. done.
Qed.

Lemma snippet_loop_ok (results : QueryResult Dist) (docs : list string)
    (f : nat -> nat) (acc : list string) (mds0 : list (option Metadata)) mrest
    (ds0 : list Dist) drest :
  qr_metadatas results = mds0 :: mrest ->
  qr_distances results = ds0 :: drest ->
  (forall i, i < List.length docs ->
     (exists m, mds0 !! f i = Some (Some m)) /\ is_Some (ds0 !! f i)) ->
  Forall (fun d => d <> "") docs ->
  for_each (snippet_step results) (imap (fun i d => (f i, d)) docs) acc
  = Ok (acc ++ docs).
Proof.
  intros Hm Hd. revert f acc. induction docs as [|doc docs IH]; intros f acc Hs Hne.
  - simpl. by rewrite List.app_nil_r.
  - apply Forall_cons in Hne as [Hdoc Hne].
    destruct (Hs 0) as [Hm0 Hd0]; [simpl; lia|].
    rewrite imap_cons. cbn [for_each].
    rewrite (snippet_step_ok _ _ _ _ _ _ _ _ Hm Hd Hm0 Hd0).
    destruct doc as [|c doc]; [done|]. cbn [first_line]. rewrite !bind_Ok.
    change ((fun i d => (f i, d)) ∘ S) with (fun i (d : string) => ((f ∘ S) i, d)).
    rewrite (IH (f ∘ S)).
    + by rewrite <- List.app_assoc.
    + intros i Hi. apply (Hs (S i)). simpl. lia.
    + done.
Qed.

Variable get_ollama_embedding : string -> result Vec.
Variable collection_query : gmap string (Entry Vec) -> Vec -> nat -> result (QueryResult Dist).

Lemma retrieval_in_order (client : gmap string (gmap string (Entry Vec)))
    (collection : gmap string (Entry Vec)) (question : string) (n : nat)
    (v : Vec) (results : QueryResult Dist) (docs0 : list string) :
  client !! collection_name = Some collection ->
  get_ollama_embedding question = Ok v ->
  collection_query collection v n = Ok results ->
  well_shaped results docs0 ->
  Forall (fun d => d <> "") docs0 ->
  query_schema_from_chroma get_ollama_embedding collection_query client question n
  = Ok docs0.
Proof.
  intros Hc Hv Hq (rest & mds0 & mrest & ds0 & drest & Hdocs & Hm & Hd & Hms & Hds) Hne.
  unfold query_schema_from_chroma, get_collection.
  rewrite Hc, Hv, bind_Ok, Hq, bind_Ok, Hdocs.
  unfold enumerate.
  rewrite (snippet_loop_ok results docs0 (fun i => i) [] mds0 mrest ds0 drest); auto.
Qed.

(** X8: on a populated index the retriever returns the documents of the
    first result list, all of them and in the order the store returned
    them, provided each has its metadata dictionary and its distance and
    none is the empty text. *)
Theorem retrieval_returns_documents_in_order
    (client : gmap string (gmap string (Entry Vec)))
    (collection : gmap string (Entry Vec)) (question : string) (n : nat)
    (v : Vec) (results : QueryResult Dist) (docs0 : list string) :
  client !! collection_name = Some collection ->
  get_ollama_embedding question = Ok v ->
  collection_query collection v n = Ok results ->
  well_shaped results docs0 ->
  Forall (fun d => d <> "") docs0 ->
  query_schema_from_chroma get_ollama_embedding collection_query client question n
  = Ok docs0.
Proof. apply retrieval_in_order. Qed.

(** X9: a stored document that is the empty text breaks retrieval.  The
    line printed for each snippet takes the first line of the document, so
    when the store returns an empty document the retriever raises
    [IndexError] instead of returning the snippets, even though every
    document has its metadata and its distance. *)
Theorem empty_document_breaks_retrieval
    (client : gmap string (gmap string (Entry Vec)))
    (collection : gmap string (Entry Vec)) (question : string) (n : nat)
    (v : Vec) (results : QueryResult Dist) (before_it after_it : list string) :
  client !! collection_name = Some collection ->
  get_ollama_embedding question = Ok v ->
  collection_query collection v n = Ok results ->
  well_shaped results (before_it ++ "" :: after_it) ->
  Forall (fun d => d <> "") before_it ->
  query_schema_from_chroma get_ollama_embedding collection_query client question n
  = Raise (PyExn IndexError "list index out of range").
Proof.
  intros Hc Hv Hq (rest & mds0 & mrest & ds0 & drest & Hdocs & Hm & Hd & Hms & Hds) Hne.
  unfold query_schema_from_chroma, get_collection.
  rewrite Hc, Hv, bind_Ok, Hq, bind_Ok, Hdocs.
  unfold enumerate. rewrite imap_app, for_each_app.
  rewrite (snippet_loop_ok results before_it (fun i => i) [] mds0 mrest ds0 drest); auto.
  - rewrite bind_Ok, imap_cons. cbn [for_each].
    rewrite (snippet_step_ok _ _ _ _ _ _ _ _ Hm Hd).
    + done.
    + apply Hms. rewrite length_app. simpl. lia.
    + apply Hds. rewrite length_app. simpl. lia.
  - intros i Hi. split; [apply Hms|apply Hds]; rewrite length_app; lia.
Qed.

End RetrievalProperties.

Lemma well_shaped_two_snippets :
  well_shaped two_snippets
    ["Table: Employees"; "Employees.DepartmentID -> Departments.DepartmentID"].
Proof.
  do 5 eexists. split_and!; try reflexivity.
  - intros [|[|i]] Hi; simpl in *; eauto; lia.
  - intros [|[|i]] Hi; simpl in *; eauto; lia.
Qed.

Lemma well_shaped_with_empty_document :
  well_shaped with_empty_document
    (["Table: Employees"] ++ "" :: ["Employees.DepartmentID -> Departments.DepartmentID"]).
Proof.
  do 5 eexists. split_and!; try reflexivity.
  - intros [|[|[|i]]] Hi; simpl in *; eauto; lia.
  - intros [|[|[|i]]] Hi; simpl in *; eauto; lia.
Qed.

Lemma retrieval_returns_documents_in_order_witness :
  well_shaped two_snippets
    ["Table: Employees"; "Employees.DepartmentID -> Departments.DepartmentID"] /\
  query_schema_from_chroma toy_embedding (fun _ _ _ => Ok two_snippets)
    indexed_store "Who works where?" 5
  = Ok ["Table: Employees"; "Employees.DepartmentID -> Departments.DepartmentID"].
Proof.
  split; [exact well_shaped_two_snippets|].
  destruct (indexed_store !! collection_name) as [collection|] eqn:Hc;
    [|discriminate Hc].
  apply (retrieval_returns_documents_in_order toy_embedding
           (fun _ _ _ => Ok two_snippets) indexed_store collection
           "Who works where?" 5 16 two_snippets _ Hc eq_refl eq_refl
           well_shaped_two_snippets).
  repeat constructor; discriminate.
Defined.

Lemma empty_document_breaks_retrieval_witness :
  well_shaped with_empty_document
    (["Table: Employees"] ++ "" :: ["Employees.DepartmentID -> Departments.DepartmentID"]) /\
  query_schema_from_chroma toy_embedding (fun _ _ _ => Ok with_empty_document)
    indexed_store "Who works where?" 5
  = Raise (PyExn IndexError "list index out of range").
Proof.
  split; [exact well_shaped_with_empty_document|].
  destruct (indexed_store !! collection_name) as [collection|] eqn:Hc;
    [|discriminate Hc].
  apply (empty_document_breaks_retrieval toy_embedding
           (fun _ _ _ => Ok with_empty_document) indexed_store collection
           "Who works where?" 5 16 with_empty_document
           ["Table: Employees"] ["Employees.DepartmentID -> Departments.DepartmentID"]
           Hc eq_refl eq_refl well_shaped_with_empty_document).
  repeat constructor; discriminate.
Defined.

(** ** The endpoint: what reaches the prompt, and how failures leave it *)

Section EndpointProperties.

Context {Vec Dist Value : Type}.
Implicit Types W : World Vec Dist Value.

(** X10: when the index returns documents, they, and not the full schema
    text, are the schema context of the prompt: the request goes on to the
    generation step with the documents joined by line feeds, in the order
    the store returned them, and the prompt contains each of them. *)
Theorem retrieved_snippets_ground_prompt W
    (client : gmap string (gmap string (Entry Vec)))
    (collection : gmap string (Entry Vec)) (user_query full : string)
    (v : Vec) (results : QueryResult Dist) (d : string) (ds : list string) :
  get_db_schema (connect W) (DATABASE_URI W) = Ok full ->
  startswith "Error" full = false ->
  initialize_chroma_client W = Ok client ->
  client !! collection_name = Some collection ->
  get_ollama_embedding W user_query = Ok v ->
  collection_query W collection v 5 = Ok results ->
  well_shaped results (d :: ds) ->
  Forall (fun doc => doc <> "") (d :: ds) ->
  let prompt := full_prompt_for_ollama (llm_db_type_of (DATABASE_URI W))
                  (join LF (d :: ds)) user_query in
  query_database W user_query = generate_and_execute W prompt /\
  forall snippet, snippet ∈ d :: ds -> contains snippet prompt = true.
Proof.
  intros Hg Hne Hi Hc Hv Hq Hw Hdocs prompt. split.
  - unfold query_database, retrieve.
    rewrite Hg, bind_Ok, Hne, Hi, bind_Ok.
    by rewrite (retrieval_in_order _ _ _ _ _ _ _ _ _ Hc Hv Hq Hw Hdocs), bind_Ok.
  - intros snippet Hin. unfold prompt, full_prompt_for_ollama.
    do 16 apply contains_skip. by apply contains_app_l, contains_join.
Qed.

(** X11: a failure of the retrieval step leaves the endpoint as it is.
    When the store cannot be opened, the question cannot be embedded or
    the query raises, the endpoint raises that same exception: it is not
    answered with the endpoint's own error response, and neither the
    gateway nor the executor decides the outcome. *)
Theorem retrieval_failure_escapes W (user_query full : string) (e : exn) :
  get_db_schema (connect W) (DATABASE_URI W) = Ok full ->
  startswith "Error" full = false ->
  (initialize_chroma_client W = Raise e \/
   exists client collection,
     initialize_chroma_client W = Ok client /\
     client !! collection_name = Some collection /\
     (get_ollama_embedding W user_query = Raise e \/
      exists v, get_ollama_embedding W user_query = Ok v /\
                collection_query W collection v 5 = Raise e)) ->
  query_database W user_query = Raise e.
Proof.
  intros Hg Hne H. unfold query_database, retrieve.
  rewrite Hg, bind_Ok, Hne.
  destruct H as [->|(client & collection & -> & Hc & H)]; [done|].
  rewrite bind_Ok. unfold query_schema_from_chroma, get_collection. rewrite Hc.
  destruct H as [->|(v & -> & Hq)]; [done|].
  by rewrite bind_Ok, Hq.
Qed.

Lemma generation_stage_raises W (prompt : string) (e : exn) :
  generate_and_execute W prompt = Raise e ->
  exists detail,
    e = HTTPException 500 detail /\
    (detail = "Could not connect to Langflow API. Is Langflow running?" \/
     startswith "Error from Langflow API: " detail = true \/
     startswith "An unexpected error occurred: " detail = true).
Proof.
  unfold generate_and_execute.
  match goal with |- try_except ?b _ = _ -> _ => destruct b as [r|e0] end; [done|].
  cbn [try_except].
  destruct (exn_cls e0); intros [= <-]; eexists; split; try reflexivity; auto.
Qed.

(** X12: the only failures of the endpoint.  When the endpoint raises,
    either the exception is the one the retrieval step raised, or it is
    [HTTPException] with status 500 whose detail is the schema error text
    (it starts with [Error]), the connection message, or a text starting
    with [Error from Langflow API: ] or [An unexpected error occurred: ]. *)
Theorem endpoint_failures W (user_query : string) (e : exn) :
  query_database W user_query = Raise e ->
  retrieve W user_query = Raise e \/
  exists detail,
    e = HTTPException 500 detail /\
    (get_db_schema (connect W) (DATABASE_URI W) = Ok detail /\
     startswith "Error" detail = true \/
     detail = "Could not connect to Langflow API. Is Langflow running?" \/
     startswith "Error from Langflow API: " detail = true \/
     startswith "An unexpected error occurred: " detail = true).
Proof.
  unfold query_database.
  destruct (get_db_schema _ _) as [full|e0] eqn:Hg.
  - rewrite bind_Ok. destruct (startswith "Error" full) eqn:Hs.
    + intros [= <-]. right. exists full. auto.
    + destruct (retrieve W user_query) as [snippets|e1]; [|intros [= <-]; by left].
      rewrite bind_Ok. intros (detail & -> & Hd)%generation_stage_raises.
      right. exists detail. auto.
  - unfold get_db_schema, try_except in Hg. by destruct (db_schema_body _ _).
Qed.

(** X13: a statement the executor rejects is reported through two
    handlers.  The inner handler's [HTTPException] is caught by the outer
    handler for [Exception], so the detail of the response is the outer
    prefix, the status and the inner detail, followed by the executor's
    message. *)
Theorem executor_failure_is_rewrapped W (prompt : string)
    (langflow_result : json) (generated_sql : string) (db_error : exn) :
  (forall headers,
     langflow_post W (LANGFLOW_API_URL W) (strip prompt) headers = Ok langflow_result) ->
  extract_sql langflow_result = Ok generated_sql ->
  execute W (DATABASE_URI W) (cleanup generated_sql) = Raise db_error ->
  generate_and_execute W prompt
  = Raise (HTTPException 500
             ("An unexpected error occurred: 500: Database query failed. Possible invalid SQL: "
              +:+ exn_str db_error)).
Proof.
  intros Hp He Hx. unfold generate_and_execute, run_query.
  rewrite Hp, bind_Ok, He, bind_Ok, Hx. reflexivity.
Qed.

(** X14: a success response reports the statement that was executed.
    The [sql_query] of the response is the cleaned text extracted from the
    gateway's answer, it is the statement the executor ran, and the
    [query_result] has one dictionary per row the executor returned. *)
Theorem reported_sql_is_executed W (prompt : string) (r : QueryResponse Value) :
  generate_and_execute W prompt = Ok r ->
  exists headers langflow_result generated_sql column_names rows,
    langflow_post W (LANGFLOW_API_URL W) (strip prompt) headers = Ok langflow_result /\
    extract_sql langflow_result = Ok generated_sql /\
    sql_query r = cleanup generated_sql /\
    execute W (DATABASE_URI W) (sql_query r) = Ok (column_names, rows) /\
    query_result r = map (fun row => dict_zip column_names row ∅) rows /\
    List.length (query_result r) = List.length rows.
Proof.
  unfold generate_and_execute, run_query.
  match goal with
  | |- context [langflow_post W ?u ?p ?h] =>
      set (headers := h); destruct (langflow_post W u p headers) as [j|e] eqn:Hp
  end.
  - rewrite bind_Ok. destruct (extract_sql j) as [sql|e] eqn:He.
    + rewrite bind_Ok.
      destruct (execute W (DATABASE_URI W) (cleanup sql)) as [[cols rows]|e] eqn:Hx.
      * rewrite bind_Ok. cbn [try_except fst snd]. rewrite bind_Ok.
        intros [= <-]. exists headers, j, sql, cols, rows. cbn [sql_query query_result].
        split_and!; try done. by rewrite length_map.
      * rewrite bind_Raise. cbn [try_except]. rewrite bind_Raise. cbn [try_except].
        by destruct (exn_cls _).
    + rewrite bind_Raise. cbn [try_except]. by destruct (exn_cls e).
  - rewrite bind_Raise. cbn [try_except]. by destruct (exn_cls e).
Qed.

End EndpointProperties.

Lemma retrieved_snippets_ground_prompt_witness :
  let W := retrieving_world (Ok two_snippets) toy_embedding (Ok (answer_with "SELECT 1")) in
  let prompt :=
    full_prompt_for_ollama "sqlite"
      (join LF ["Table: Employees"; "Employees.DepartmentID -> Departments.DepartmentID"])
      "Who works where?" in
  well_shaped two_snippets
    ["Table: Employees"; "Employees.DepartmentID -> Departments.DepartmentID"] /\
  query_database W "Who works where?" = generate_and_execute W prompt /\
  forall snippet,
    snippet ∈ ["Table: Employees"; "Employees.DepartmentID -> Departments.DepartmentID"] ->
    contains snippet prompt = true.
Proof.
  intros W prompt. split; [exact well_shaped_two_snippets|].
  destruct (indexed_store !! collection_name) as [collection|] eqn:Hc;
    [|discriminate Hc].
  destruct (get_db_schema (connect W) (DATABASE_URI W)) as [full|e] eqn:Hg;
    [|discriminate Hg].
  apply (retrieved_snippets_ground_prompt W indexed_store collection
           "Who works where?" full 16 two_snippets
           "Table: Employees" ["Employees.DepartmentID -> Departments.DepartmentID"]
           Hg); try reflexivity; try assumption.
  - injection Hg as <-. reflexivity.
  - exact well_shaped_two_snippets.
  - repeat constructor; discriminate.
Defined.

Lemma retrieval_failure_escapes_witness :
  let W := retrieving_world (Ok two_snippets)
             (fun _ => Raise (PyExn OtherException "model not found"))
             (Ok (answer_with "SELECT 1")) in
  get_ollama_embedding W "Who works where?"
  = Raise (PyExn OtherException "model not found") /\
  query_database W "Who works where?" = Raise (PyExn OtherException "model not found").
Proof.
  intros W. split; [reflexivity|].
  destruct (indexed_store !! collection_name) as [collection|] eqn:Hc;
    [|discriminate Hc].
  destruct (get_db_schema (connect W) (DATABASE_URI W)) as [full|e] eqn:Hg;
    [|discriminate Hg].
  apply (retrieval_failure_escapes W "Who works where?" full
           (PyExn OtherException "model not found") Hg).
  - injection Hg as <-. reflexivity.
  - right. exists indexed_store, collection. split; [reflexivity|].
    split; [exact Hc|]. left. reflexivity.
Defined.

Lemma endpoint_failures_witness :
  let W := retrieving_world (Ok two_snippets) toy_embedding
             (Raise (PyExn ConnectionError "connection refused")) in
  query_database W "Who works where?"
  = Raise (HTTPException 500 "Could not connect to Langflow API. Is Langflow running?") /\
  (retrieve W "Who works where?"
   = Raise (HTTPException 500 "Could not connect to Langflow API. Is Langflow running?") \/
   exists detail,
     HTTPException 500 "Could not connect to Langflow API. Is Langflow running?"
     = HTTPException 500 detail /\
     (get_db_schema (connect W) (DATABASE_URI W) = Ok detail /\
      startswith "Error" detail = true \/
      detail = "Could not connect to Langflow API. Is Langflow running?" \/
      startswith "Error from Langflow API: " detail = true \/
      startswith "An unexpected error occurred: " detail = true)).
Proof.
  intros W. split; [reflexivity|].
  apply (endpoint_failures W "Who works where?"). reflexivity.
Defined.

Lemma executor_failure_is_rewrapped_witness :
  let W := retrieving_world (Ok two_snippets) toy_embedding (Ok (answer_with "SELEC 1")) in
  execute W (DATABASE_URI W) (cleanup "SELEC 1")
  = Raise (PyExn OtherException "syntax error") /\
  generate_and_execute W "prompt"
  = Raise (HTTPException 500
      "An unexpected error occurred: 500: Database query failed. Possible invalid SQL: syntax error").
Proof.
  intros W. split; [reflexivity|].
  apply (executor_failure_is_rewrapped W "prompt" (answer_with "SELEC 1") "SELEC 1"
           (PyExn OtherException "syntax error")); reflexivity.
Defined.

Lemma reported_sql_is_executed_witness :
  let W := retrieving_world (Ok two_snippets) toy_embedding
             (Ok (answer_with "```sql SELECT 1 ```")) in
  generate_and_execute W "prompt"
  = Ok {| sql_query := "SELECT 1"; query_result := [ {[ "n" := 1%Z ]} ] |} /\
  exists headers langflow_result generated_sql column_names rows,
    langflow_post W (LANGFLOW_API_URL W) (strip "prompt") headers = Ok langflow_result /\
    extract_sql langflow_result = Ok generated_sql /\
    "SELECT 1" = cleanup generated_sql /\
    execute W (DATABASE_URI W) "SELECT 1" = Ok (column_names, rows) /\
    [ ({[ "n" := 1%Z ]} : gmap string Z) ]
    = map (fun row => dict_zip column_names row ∅) rows /\
    1 = List.length rows.
Proof.
  intros W. split; [reflexivity|].
  apply (reported_sql_is_executed W "prompt"
           {| sql_query := "SELECT 1"; query_result := [ {[ "n" := 1%Z ]} ] |}).
  reflexivity.
Defined.

(** ** Extraction and cleanup of the generated text *)

Section ExtractionOfSql.

Lemma extract_loop_skip (skipped outputs : list json) (generated_sql : string) :
  forallb lacks_message skipped = true ->
  extract_loop (skipped ++ outputs) generated_sql = extract_loop outputs generated_sql.
Proof.
  induction skipped as [|output skipped IH]; [done|].
  intros [Ho Hrest]%andb_true_iff. specialize (IH Hrest).
  destruct output as [| | | | |fields]; try done.
  unfold lacks_message in Ho.
  change ((JObj fields :: skipped) ++ outputs) with (JObj fields :: (skipped ++ outputs)).
  cbn [extract_loop py_get]. rewrite bind_Ok.
  destruct (truthy (default JNull (lookup_field "results" fields))) eqn:Hr.
  - rewrite (py_getitem_get _ _ Hr), bind_Ok.
    destruct (default JNull (lookup_field "results" fields))
      as [| | | | |rfields]; try done.
    unfold py_get. rewrite !bind_Ok.
    apply negb_true_iff in Ho. by rewrite Ho.
  - by rewrite bind_Ok.
Qed.

(** X15: the first output that carries a message decides.  Outputs that
    lack a message are skipped, the text of the first message is taken and
    stripped, and whatever outputs follow are not looked at. *)
Theorem first_message_wins (skipped later : list json) (text : string) :
  forallb lacks_message skipped = true ->
  extract_sql (JObj [("outputs", JArr (skipped ++ message_output text :: later))])
  = Ok (strip text).
Proof.
  intros Hs. unfold extract_sql.
  assert (truthy (JArr (skipped ++ message_output text :: later)) = true) as Ht
    by (by destruct skipped).
  cbn [truthy py_get lookup_field]. rewrite decide_True by done.
  cbn [default from_option id]. rewrite bind_Ok.
  change (match skipped ++ message_output text :: later with [] => false | _ => true end)
    with (truthy (JArr (skipped ++ message_output text :: later))).
  rewrite Ht. cbn [py_getitem lookup_field]. rewrite decide_True by done.
  rewrite bind_Ok. cbn [py_iter]. rewrite bind_Ok.
  by rewrite extract_loop_skip.
Qed.

Lemma extract_loop_result (outputs : list json) (generated_sql sql : string) :
  extract_loop outputs generated_sql = Ok sql ->
  sql = generated_sql \/ exists text, sql = strip text.
Proof.
  induction outputs as [|output outputs IH]; intros H.
  - injection H as <-. by left.
  - cbn [extract_loop] in H.
    destruct (py_get output "results") as [results|]; [|done]. rewrite bind_Ok in H.
    destruct (truthy results).
    + destruct (py_getitem output "results") as [r|]; [|done]. rewrite !bind_Ok in H.
      destruct (py_get r "message") as [m|]; [|done]. rewrite !bind_Ok in H.
      destruct (truthy m); [|by apply IH].
      destruct (py_getitem r "message") as [m'|]; [|done]. rewrite bind_Ok in H.
      destruct (py_getitem m' "data") as [data|]; [|done]. rewrite bind_Ok in H.
      destruct (py_getitem data "text") as [text|]; [|done]. rewrite bind_Ok in H.
      destruct text as [| | |t| |]; try done.
      injection H as <-. right. by exists t.
    + rewrite bind_Ok in H. by apply IH.
Qed.

Lemma extract_sql_result (langflow_result : json) (sql : string) :
  extract_sql langflow_result = Ok sql ->
  sql = extraction_sentinel \/ exists text, sql = strip text.
Proof.
  unfold extract_sql. destruct (truthy langflow_result); [|intros [= <-]; by left].
  destruct (py_get langflow_result "outputs") as [outputs|]; [|done].
  rewrite bind_Ok. destruct (truthy outputs); [|intros [= <-]; by left].
  destruct (py_getitem langflow_result "outputs") as [outputs'|]; [|done].
  rewrite bind_Ok. destruct (py_iter outputs') as [items|]; [|done].
  rewrite bind_Ok. apply extract_loop_result.
Qed.

Lemma cleanup_clean (sql : string) :
  lstrip sql = sql -> rstrip sql = sql ->
  lstrip (cleanup sql) = cleanup sql /\ rstrip (cleanup sql) = cleanup sql.
Proof.
  intros Hl Hr. unfold cleanup.
  destruct (startswith fence_open sql && endswith fence_close sql); [|done].
  apply strip_clean.
Qed.

End ExtractionOfSql.

Section TrimmedSql.

Context {Vec Dist Value : Type}.

Lemma success_inversion (W : World Vec Dist Value) (prompt : string)
    (r : QueryResponse Value) :
  generate_and_execute W prompt = Ok r ->
  exists generated_sql,
    (exists langflow_result, extract_sql langflow_result = Ok generated_sql) /\
    sql_query r = cleanup generated_sql.
Proof.
  unfold generate_and_execute, run_query.
  destruct (langflow_post W _ _ _) as [j|e]; [rewrite bind_Ok|].
  - destruct (extract_sql j) as [sql|e] eqn:He; [rewrite bind_Ok|].
    + destruct (execute W (DATABASE_URI W) (cleanup sql)) as [[cols rows]|e].
      * rewrite bind_Ok. cbn [try_except]. rewrite bind_Ok.
        intros [= <-]. exists sql. split; [by exists j|done].
      * rewrite bind_Raise. cbn [try_except]. rewrite bind_Raise. cbn [try_except].
        by destruct (exn_cls _).
    + rewrite bind_Raise. cbn [try_except]. by destruct (exn_cls e).
  - rewrite bind_Raise. cbn [try_except]. by destruct (exn_cls e).
Qed.

(** X16: the statement of a success response never has leading or
    trailing whitespace: it is a stripped message text, the stripped
    inside of a fence, or the substitute text. *)
Theorem reported_sql_is_trimmed (W : World Vec Dist Value) (prompt : string)
    (r : QueryResponse Value) :
  generate_and_execute W prompt = Ok r ->
  lstrip (sql_query r) = sql_query r /\ rstrip (sql_query r) = sql_query r.
Proof.
  intros H.
  destruct (success_inversion W prompt r H) as (sql & [j He] & ->).
  apply extract_sql_result in He as [->|[text ->]].
  - by rewrite cleanup_sentinel.
  - apply cleanup_clean; apply strip_clean.
Qed.

End TrimmedSql.

Lemma first_message_wins_witness :
  forallb lacks_message [JObj [("results", JNull)]; JObj []] = true /\
  extract_sql
    (JObj [("outputs",
            JArr ([JObj [("results", JNull)]; JObj []]
                  ++ message_output "  SELECT 1 " :: [message_output "SELECT 2"]))])
  = Ok (strip "  SELECT 1 ").
Proof.
  split; [reflexivity|].
  apply (first_message_wins [JObj [("results", JNull)]; JObj []]
           [message_output "SELECT 2"] "  SELECT 1 ").
  reflexivity.
Defined.

Lemma reported_sql_is_trimmed_witness :
  let W := retrieving_world (Ok two_snippets) toy_embedding
             (Ok (answer_with "```sql SELECT 1 ```")) in
  let r := {| sql_query := "SELECT 1"; query_result := [ {[ "n" := 1%Z ]} ] |} in
  generate_and_execute W "prompt" = Ok r /\
  lstrip (sql_query r) = sql_query r /\ rstrip (sql_query r) = sql_query r.
Proof.
  intros W r. split; [reflexivity|].
  apply (reported_sql_is_trimmed W "prompt" r). reflexivity.
Defined.

(** ** The fence test of the cleanup *)

Section FenceFacts.

Lemma endswith_app_inv (q s : string) :
  endswith q s = true -> exists r, s = r +:+ q.
Proof.
  unfold endswith. intros [r Hr]%startswith_app_inv.
  exists (String.rev r).
  by rewrite <- (rev_involutive s), Hr, rev_app, rev_involutive.
Qed.

(** A text that opens with the fence and closes with it has room for
    both: the two markers do not overlap. *)
Lemma fence_decomposition (sql : string) :
  startswith fence_open sql = true -> endswith fence_close sql = true ->
  exists body, sql = fence_open +:+ body +:+ fence_close.
Proof.
  intros [rest ->]%startswith_app_inv He.
  unfold endswith in He. rewrite rev_app in He.
  assert (exists x, String.rev rest = String.rev fence_close +:+ x) as [x Hx].
  { destruct (String.rev rest) as [|a [|b [|c x]]].
    - rewrite sapp_nil_l in He. cbn in He. repeat case_decide; done.
    - rewrite !sapp_cons, sapp_nil_l in He. cbn in He. repeat case_decide; done.
    - rewrite !sapp_cons, sapp_nil_l in He. cbn in He. repeat case_decide; done.
    - rewrite !sapp_cons in He. cbn in He. repeat case_decide; try done.
      subst. by exists x. }
  exists (String.rev x). f_equal.
  by rewrite <- (rev_involutive rest), Hx, rev_app, rev_involutive.
Qed.

(** X17: the cleanup changes a text only by removing a fence that is
    really there.  Either the text is returned as it is, or it is
    [```sql], a body and [```] with nothing before or after, and the
    result is the body without its outer whitespace; the slice never runs
    the two markers into each other. *)
Theorem cleanup_only_unwraps (sql : string) :
  cleanup sql = sql \/
  exists body, sql = fence_open +:+ body +:+ fence_close /\ cleanup sql = strip body.
Proof.
  destruct (startswith fence_open sql && endswith fence_close sql) eqn:H.
  - right. apply andb_true_iff in H as [Hs He].
    destruct (fence_decomposition sql Hs He) as [body ->].
    exists body. split; [done|]. apply cleanup_fenced.
  - left. unfold cleanup. by rewrite H.
Qed.

End FenceFacts.

(** ** The row dictionaries of the response *)

Section RowDictionaries.

Context {Value : Type}.
Implicit Types (d : gmap string Value) (row : list Value).

Lemma dict_zip_lookup_notin (k : string) (column_names : list string) row d :
  k ∉ column_names -> dict_zip column_names row d !! k = d !! k.
Proof.
  revert row d. induction column_names as [|k' ks IH]; intros [|v vs] d Hk; try done.
  apply not_elem_of_cons in Hk as [Hne Hk].
  cbn [dict_zip]. rewrite IH by done. by rewrite lookup_insert_ne.
Qed.

Lemma dict_zip_app (ks ks' : list string) (vs vs' : list Value) d :
  List.length ks = List.length vs ->
  dict_zip (ks ++ ks') (vs ++ vs') d = dict_zip ks' vs' (dict_zip ks vs d).
Proof.
  revert vs d. induction ks as [|k ks IH]; intros [|v vs] d Hl; try done.
  cbn [dict_zip List.app]. apply IH. simpl in Hl. lia.
Qed.

Lemma dict_zip_closed (column_names : list string) row d :
  NoDup column_names -> List.length row = List.length column_names ->
  dict_zip column_names row d = list_to_map (zip column_names row) ∪ d.
Proof.
  revert row d. induction column_names as [|k ks IH]; intros [|v vs] d Hn Hl; try done.
  - symmetry. apply (left_id_L ∅ (∪)).
  - apply NoDup_cons in Hn as [Hk Hn]. simpl in Hl.
    cbn [dict_zip]. rewrite IH by (done || lia).
    change (zip (k :: ks) (v :: vs)) with ((k, v) :: zip ks vs).
    rewrite list_to_map_cons, <- insert_union_l.
    rewrite insert_union_r; [done|].
    apply not_elem_of_list_to_map_1. rewrite fst_zip by lia. done.
Qed.

(** X18: a result set with distinct column names and full rows is
    reported faithfully.  The dictionary of a row has exactly the column
    names as keys, as many entries as the row has values, and under each
    column name the value at that column's position. *)
Theorem row_dictionary_faithful (column_names : list string) row :
  NoDup column_names -> List.length row = List.length column_names ->
  dom (dict_zip column_names row ∅) = list_to_set column_names /\
  size (dict_zip column_names row ∅) = List.length row /\
  forall i k v, column_names !! i = Some k -> row !! i = Some v ->
    dict_zip column_names row ∅ !! k = Some v.
Proof.
  intros Hn Hl. rewrite dict_zip_closed by done. rewrite (right_id_L ∅ (∪)).
  assert ((zip column_names row).*1 = column_names) as Hfst
    by (rewrite fst_zip; [done|lia]).
  split_and!.
  - by rewrite dom_list_to_map_L, Hfst.
  - rewrite map_size_list_to_map by (by rewrite Hfst).
    rewrite length_zip_with. lia.
  - intros i k v Hk Hv. apply elem_of_list_to_map_1; [by rewrite Hfst|].
    apply (list_elem_of_lookup_2 _ i). rewrite lookup_zip_with, Hk. simpl. by rewrite Hv.
Qed.

(** X19: when the result set repeats a column name, as a join of two
    tables with a column of the same name does, the dictionary keeps one
    entry for it, holding the value of the last column of that name,
    whatever the earlier columns of that name held. *)
Theorem duplicate_column_keeps_last (ks ks' : list string) (vs vs' : list Value)
    (k : string) (v : Value) d :
  List.length ks = List.length vs -> k ∉ ks' ->
  dict_zip (ks ++ k :: ks') (vs ++ v :: vs') d !! k = Some v.
Proof.
  intros Hl Hk. rewrite dict_zip_app by done.
  cbn [dict_zip]. rewrite dict_zip_lookup_notin by done.
  by rewrite lookup_insert_eq.
Qed.

End RowDictionaries.

Lemma row_dictionary_faithful_witness :
  NoDup ["id"; "name"] /\
  List.length [1%Z; 2%Z] = List.length ["id"; "name"] /\
  dom (dict_zip ["id"; "name"] [1%Z; 2%Z] ∅) = list_to_set ["id"; "name"] /\
  size (dict_zip ["id"; "name"] [1%Z; 2%Z] ∅) = List.length [1%Z; 2%Z] /\
  forall i k v, ["id"; "name"] !! i = Some k -> [1%Z; 2%Z] !! i = Some v ->
    dict_zip ["id"; "name"] [1%Z; 2%Z] ∅ !! k = Some v.
Proof.
  assert (NoDup ["id"; "name"]) as Hn by (apply (bool_decide_unpack _); vm_compute; exact I).
  split; [exact Hn|]. split; [reflexivity|].
  apply (row_dictionary_faithful ["id"; "name"] [1%Z; 2%Z] Hn). reflexivity.
Defined.

Lemma duplicate_column_keeps_last_witness :
  List.length ["id"] = List.length [1%Z] /\
  ("id" ∉ ["name"]) /\
  dict_zip (["id"] ++ "id" :: ["name"]) ([1%Z] ++ 2%Z :: [3%Z]) ∅ !! "id" = Some 2%Z.
Proof.
  assert ("id" ∉ ["name"]) as Hk by (apply (bool_decide_unpack _); vm_compute; exact I).
  split; [reflexivity|]. split; [exact Hk|].
  apply (duplicate_column_keeps_last ["id"] ["name"] [1%Z] [3%Z] "id" 2%Z ∅);
    [reflexivity|exact Hk].
Defined.

(** ** The dialect named in the prompt *)

Section Dialect.

Lemma contains_char_cons_ne (c d : ascii) (s : string) :
  c <> d -> contains (String c "") s = false ->
  contains (String c "") (String d s) = false.
Proof.
  intros Hne H. cbn [contains startswith]. rewrite decide_False by done. done.
Qed.

(** X20: the dialect put into the prompt is the longest prefix of the
    connection descriptor that has neither a colon nor a plus sign: the
    descriptor goes on after it with one of the two, or ends there. *)
Theorem dialect_is_longest_plain_prefix (database_uri : string) :
  exists rest,
    database_uri = llm_db_type_of database_uri +:+ rest /\
    (rest = "" \/ startswith ":" rest = true \/ startswith "+" rest = true) /\
    contains ":" (llm_db_type_of database_uri) = false /\
    contains "+" (llm_db_type_of database_uri) = false.
Proof.
  unfold llm_db_type_of.
  induction database_uri as [|a s (rest & Hs & Hrest & Hc & Hp)].
  - exists "". split_and!; try done. by left.
  - cbn [before]. destruct (decide (a = ":"%char)) as [->|Hne].
    + exists (String ":" s). split_and!; try done. right. by left.
    + cbn [before]. destruct (decide (a = "+"%char)) as [->|Hne'].
      * exists (String "+" s). split_and!; try done. right. by right.
      * exists rest. split_and!; try done.
        -- rewrite sapp_cons. by rewrite <- Hs.
        -- apply contains_char_cons_ne; [congruence|done].
        -- apply contains_char_cons_ne; [congruence|done].
Qed.

End Dialect.

(** ** The payload sent to the gateway *)

Section Payload.







End Payload.

(** ** Startup indexing *)

Section StartupProperties.

Context {Vec Dist Value : Type}.
Implicit Types (W : World Vec Dist Value) (client : gmap string (gmap string (Entry Vec))).

Lemma snapshot_read (connect : string -> result Inspector) (uri : string) :
  introspection_failure connect uri = None ->
  exists insp ts,
    connect uri = Ok insp /\ get_table_names insp = Ok ts /\
    get_structured_db_schema connect uri = Ok (snapshot_of insp ts).
Proof.
  intros Hf. pose proof (structured_body_failure connect uri) as Hb.
  rewrite Hf in Hb. destruct Hb as [s Hs].
  destruct (structured_body_closed connect uri s Hs) as (insp & ts & Hc & Ht & ->).
  exists insp, ts. split_and!; try done. by apply get_structured_ok.
Qed.

Lemma comprehension_total {A B} (f : A -> result B) (xs : list A) :
  (forall x, exists y, f x = Ok y) -> exists ys, comprehension f xs = Ok ys.
Proof.
  intros Hf. induction xs as [|x xs [ys IH]]; [by eexists|].
  destruct (Hf x) as [y Hy]. exists (y :: ys).
  cbn [comprehension]. by rewrite Hy, bind_Ok, IH, bind_Ok.
Qed.

Lemma add_schema_returns (get_ollama_embedding : string -> result Vec) client
    (s : SchemaInfo) :
  (forall text, exists v, get_ollama_embedding text = Ok v) ->
  (add_schema_to_chroma get_ollama_embedding client s).2 = Ok ().
Proof.
  intros Hemb. rewrite add_schema_closed. cbv zeta.
  destruct (comprehension_total get_ollama_embedding (documents_of s) Hemb) as [es ->].
  by destruct (documents_of s).
Qed.

Lemma relationships_length (insp : Inspector) (ts : list string) :
  List.length (relationships (snapshot_of insp ts))
  = List.length (List.concat (fks_of insp <$> ts)).
Proof.
  cbn [relationships snapshot_of].
  induction ts as [|t ts IH]; [done|].
  cbn [fmap list_fmap List.concat]. rewrite !length_app, length_fmap.
  f_equal. apply IH.
Qed.

(** X22: what startup does to the store.  When the connection cannot be
    opened or a metadata call raises, the store is left exactly as it
    was, and the collection is not even created.  Otherwise the
    indexing run is made on the snapshot of the tables the backend
    lists, and the store is what that run leaves, whether it returned or
    raised. *)
Theorem startup_outcome W client :
  match introspection_failure (connect W) (DATABASE_URI W) with
  | Some _ => startup_event W client = client
  | None =>
      exists insp ts,
        connect W (DATABASE_URI W) = Ok insp /\
        get_table_names insp = Ok ts /\
        startup_event W client
        = (add_schema_to_chroma (get_ollama_embedding W) client
             (as_schema_info (snapshot_of insp ts))).1
  end.
Proof.
  destruct (introspection_failure _ _) as [e|] eqn:Hf.
  - unfold startup_event. by rewrite (get_structured_failure _ _ e Hf).
  - destruct (snapshot_read _ _ Hf) as (insp & ts & Hc & Ht & Hs).
    exists insp, ts. split_and!; try done.
    unfold startup_event. by rewrite Hs.
Qed.

(** X23: startup on a store without the collection, against a database
    that can be read and an embedding provider that answers, leaves a
    collection with one entry per table and one per foreign key of the
    database, under the ids of the snapshot. *)
Theorem startup_on_fresh_store W client (insp : Inspector) (ts : list string) :
  connect W (DATABASE_URI W) = Ok insp ->
  get_table_names insp = Ok ts ->
  first_failure insp ts = None ->
  (forall text, exists v, get_ollama_embedding W text = Ok v) ->
  default ∅ (client !! collection_name) = ∅ ->
  exists collection,
    startup_event W client !! collection_name = Some collection /\
    dom collection = list_to_set (ids_of (as_schema_info (snapshot_of insp ts))) /\
    size collection
    = List.length ts + List.length (List.concat (fks_of insp <$> ts)).
Proof.
  intros Hc Ht Hff Hemb Hfresh.
  assert (introspection_failure (connect W) (DATABASE_URI W) = None) as Hf.
  { unfold introspection_failure. by rewrite Hc, Ht. }
  destruct (snapshot_read _ _ Hf) as (insp' & ts' & Hc' & Ht' & Hs).
  rewrite Hc in Hc'. injection Hc' as <-. rewrite Ht in Ht'. injection Ht' as <-.
  assert (startup_event W client
          = (add_schema_to_chroma (get_ollama_embedding W) client
               (as_schema_info (snapshot_of insp ts))).1) as ->.
  { unfold startup_event. by rewrite Hs. }
  pose proof (add_schema_returns (get_ollama_embedding W) client
                (as_schema_info (snapshot_of insp ts)) Hemb) as Hok.
  destruct (add_schema_to_chroma _ client _) as [after outcome] eqn:Hrun.
  cbn [fst snd] in *. subst outcome.
  destruct (fresh_index_closed _ client after _ Hfresh Hrun) as (collection & Ha & Hd & Hsz).
  exists collection. split_and!; try done.
  rewrite Hsz, relationships_length. cbn [tables snapshot_of]. by rewrite length_fmap.
Qed.

End StartupProperties.

Lemma startup_on_fresh_store_witness :
  let W := world (fun _ => Ok company_db) ∅ (Ok JNull) in
  connect W (DATABASE_URI W) = Ok company_db /\
  get_table_names company_db = Ok ["Departments"; "Employees"] /\
  first_failure company_db ["Departments"; "Employees"] = None /\
  (forall text, exists v, get_ollama_embedding W text = Ok v) /\
  default ∅ ((∅ : gmap string (gmap string (Entry nat))) !! collection_name) = ∅ /\
  exists collection,
    startup_event W ∅ !! collection_name = Some collection /\
    dom collection
    = list_to_set
        (ids_of (as_schema_info (snapshot_of company_db ["Departments"; "Employees"]))) /\
    size collection
    = List.length ["Departments"; "Employees"]
      + List.length (List.concat (fks_of company_db <$> ["Departments"; "Employees"])).
Proof.
  intros W.
  assert (forall text, exists v, get_ollama_embedding W text = Ok v) as Hemb
    by (intros text; eexists; reflexivity).
  assert (default ∅ ((∅ : gmap string (gmap string (Entry nat))) !! collection_name) = ∅)
    as Hfresh by (vm_compute; reflexivity).
  split; [reflexivity|]. split; [reflexivity|]. split; [reflexivity|].
  split; [exact Hemb|]. split; [exact Hfresh|].
  apply (startup_on_fresh_store W ∅ company_db ["Departments"; "Employees"]
           eq_refl eq_refl eq_refl Hemb Hfresh).
Defined.

(** ** The two extraction functions side by side *)

Section Agreement.

Variable connect : string -> result Inspector.
Variable uri : string.

(** X24: the two extraction functions fail together, which is what the
    two tests of [test_schema.py] and the guards of startup and of the
    endpoint rely on.  On the same database, the snapshot carries an
    [error] key exactly when the schema text starts with [Error], and the
    text is then [Error: ] followed by the value of the key. *)
Theorem extractions_fail_together (full : string) (s : StructuredSchema) :
  get_db_schema connect uri = Ok full ->
  get_structured_db_schema connect uri = Ok s ->
  match error s with
  | Some msg => full = "Error: " +:+ msg /\ startswith "Error" full = true
  | None => startswith "Error" full = false
  end.
Proof.
  intros Hfull Hs.
  destruct (introspection_failure connect uri) as [e|] eqn:Hf.
  - rewrite (get_db_schema_failure _ _ e Hf) in Hfull. injection Hfull as <-.
    rewrite (get_structured_failure _ _ e Hf) in Hs. injection Hs as <-.
    done.
  - destruct (snapshot_read _ _ Hf) as (insp & ts & _ & _ & Hs').
    rewrite Hs' in Hs. injection Hs as <-. cbn [error snapshot_of].
    pose proof (db_schema_body_failure connect uri) as Hb. rewrite Hf in Hb.
    destruct Hb as [full' Hb].
    rewrite (get_db_schema_ok _ _ _ Hb) in Hfull. injection Hfull as <-.
    by eapply db_schema_not_error.
Qed.

Lemma sapp_mid_nonempty (a : string) (c : ascii) (b : string) :
  a +:+ String c b <> "".
Proof. by destruct a. Qed.

(** X25: every document that startup hands to the index for a snapshot
    the introspector returned is a non-empty text with a first line, so
    the line printed for a retrieved snippet can be taken from each of
    them. *)
Theorem indexed_documents_have_first_line (s : StructuredSchema) (doc : string) :
  get_structured_db_schema connect uri = Ok s ->
  doc ∈ documents_of (as_schema_info s) ->
  doc <> "" /\ exists line, first_line doc = Ok line.
Proof.
  intros Hs Hdoc.
  assert (doc <> "") as Hne.
  { destruct (introspection_failure connect uri) as [e|] eqn:Hf.
    - rewrite (get_structured_failure _ _ e Hf) in Hs. injection Hs as <-.
      by apply elem_of_nil in Hdoc.
    - destruct (snapshot_read _ _ Hf) as (insp & ts & _ & _ & Hs').
      rewrite Hs' in Hs. injection Hs as <-.
      unfold documents_of, tables_of, rels_of in Hdoc. cbn in Hdoc.
      apply elem_of_app in Hdoc as [Hdoc|Hdoc];
        apply elem_of_lookup_imap in Hdoc as (i & y & -> & Hy).
      + done.
      + apply list_lookup_fmap_Some in Hy as (r & -> & Hr).
        apply list_elem_of_lookup_2 in Hr.
        apply list_elem_of_In, List.in_concat in Hr as (l & Hl & Hr).
        apply list_elem_of_In, list_elem_of_fmap in Hl as (t & -> & _).
        apply list_elem_of_In, list_elem_of_fmap in Hr as (fk & -> & _).
        unfold rel_doc. cbn. unfold fk_desc. apply sapp_mid_nonempty. }
  split; [done|]. destruct doc; [done|]. by eexists.
Qed.

End Agreement.

Lemma extractions_fail_together_witness :
  let full := "Error: Could not retrieve database schema. Details: unable to open database file" in
  let s := {| tables := []; relationships := [];
              error := Some "Could not retrieve database schema. Details: unable to open database file" |} in
  get_db_schema unreachable "sqlite:///missing.db" = Ok full /\
  get_structured_db_schema unreachable "sqlite:///missing.db" = Ok s /\
  full = "Error: " +:+ "Could not retrieve database schema. Details: unable to open database file" /\
  startswith "Error" full = true.
Proof.
  intros full s. split; [reflexivity|]. split; [reflexivity|].
  apply (extractions_fail_together unreachable "sqlite:///missing.db" full s); reflexivity.
Defined.

Lemma indexed_documents_have_first_line_witness :
  let doc := "Employees.DepartmentID -> Departments.DepartmentID" in
  get_structured_db_schema (fun _ => Ok company_db) "sqlite:///./my_test_database.db"
  = Ok company_snapshot /\
  doc ∈ documents_of (as_schema_info company_snapshot) /\
  doc <> "" /\ exists line, first_line doc = Ok line.
Proof.
  intros doc.
  assert (doc ∈ documents_of (as_schema_info company_snapshot)) as Hdoc
    by (apply (bool_decide_unpack _); vm_compute; exact I).
  split; [reflexivity|]. split; [exact Hdoc|].
  apply (indexed_documents_have_first_line (fun _ => Ok company_db)
           "sqlite:///./my_test_database.db" company_snapshot doc eq_refl Hdoc).
Defined.
